(** * go-support-id-error: error identifiers, envelopes, dispatch and recovery

    A shallow embedding of the Go package [errorid]
    (generator.go, error_id.go, config.go, handler.go, middleware.go)
    together with the properties its specification states.

    Conventions of the embedding
    - Go strings are [string]; bytes are [Byte.byte]; Go integers are [Z].
    - A Go [map[string]interface{}] is a reference: a location in a store
      of [gmap string any]; the nil map is [None].
    - Calls that leave the package (logger, callback, custom generator,
      clock, randomness source, the runtime's stack dump) are recorded in a
      trace or answered by an oracle carried in the world.
    - A panic is an explicit result, [Panicked v]; [defer]/[recover] are
      written out where the source has them. *)

From Stdlib Require Import ZArith String Ascii List Lia.
From stdpp Require Import gmap strings list fin_maps.

Open Scope Z_scope.

(** ** Package fmt, strconv, encoding/hex: the fragments the package uses *)

Definition ascii_code (c : ascii) : Z := Z.of_nat (nat_of_ascii c).

Definition is_digit (c : ascii) : bool :=
  (48 <=? ascii_code c) && (ascii_code c <=? 57).

Definition is_lower_hex (c : ascii) : bool :=
  is_digit c || ((97 <=? ascii_code c) && (ascii_code c <=? 102)).

Fixpoint all_chars (p : ascii -> bool) (s : string) : bool :=
  match s with
  | EmptyString => true
  | String c s' => p c && all_chars p s'
  end.

Fixpoint repeat_char (c : ascii) (n : nat) : string :=
  match n with
  | O => EmptyString
  | S n' => String c (repeat_char c n')
  end.

(** The character ['0' + d]. *)
Definition digit_char (d : Z) : ascii := ascii_of_nat (Z.to_nat (48 + d)).

(** Decimal rendering of a non-negative integer, most significant digit
    first.  The loop divides by ten until the quotient is a single digit;
    twenty rounds cover every 64-bit value. *)
Fixpoint utoa_loop (rounds : nat) (u : Z) (acc : string) : string :=
  match rounds with
  | O => acc
  | S rounds' =>
      let acc' := String (digit_char (u mod 10)) acc in
      if u <? 10 then acc' else utoa_loop rounds' (u / 10) acc'
  end.

Definition utoa (u : Z) : string := utoa_loop 20 u EmptyString.

(** [%d] with an optional [0] flag and width, as fmt prints integers: the
    sign counts towards the width, zero padding goes between sign and
    digits, space padding goes in front. *)
Definition fmt_integer (zero : bool) (width : nat) (n : Z) : string :=
  let sign := if n <? 0 then "-"%string else EmptyString in
  let digits := utoa (Z.abs n) in
  let used := (String.length sign + String.length digits)%nat in
  if zero
  then sign +:+ repeat_char "0" (width - used) +:+ digits
  else repeat_char " " (width - used) +:+ sign +:+ digits.

(** [appendInt] of package time: the sign does not count towards the
    width. *)
Definition time_appendInt (x : Z) (width : nat) : string :=
  let sign := if x <? 0 then "-"%string else EmptyString in
  let digits := utoa (Z.abs x) in
  sign +:+ repeat_char "0" (width - String.length digits) +:+ digits.

(** encoding/hex *)
Definition hextable : string := "0123456789abcdef".

Definition hex_digit (n : N) : ascii :=
  match String.get (N.to_nat n) hextable with
  | Some c => c
  | None => "0"%char
  end.

Fixpoint hex_EncodeToString (src : list Byte.byte) : string :=
  match src with
  | [] => EmptyString
  | v :: rest =>
      String (hex_digit (N.shiftr (Byte.to_N v) 4))
        (String (hex_digit (N.land (Byte.to_N v) 15))
           (hex_EncodeToString rest))
  end.

(** ** Values *)

(** Locations of map objects in the store. *)
Definition loc := positive.

(** [interface{}] values kept in a details map.  A nested map is a
    reference, like every Go map. *)
Inductive any :=
| AString (s : string)
| AInt (z : Z)
| AInt64 (z : Z)
| ABool (b : bool)
| AMap (l : loc).

(** Go [error] values and the payload of a panic.  [UserError] is any
    error made outside the package: [addr] is its identity (the pointer
    inside the interface value) and [text] what its [Error] method
    returns.  [PanicError] is [*panicError] of middleware.go.
    [RuntimeError] is an error raised by the Go runtime itself. *)
Inductive error :=
| UserError (addr : positive) (text : string)
| PanicError (value : panic_value)
| RuntimeError (text : string)
with panic_value :=
| PString (s : string)
| PInt (z : Z)
| PErr (e : error).

(** [Error] methods, and [fmt.Sprint] on one operand.  [panicError.Error]
    is [fmt.Sprint("panic: ", e.value)]: Sprint puts a space between two
    operands only when neither is a string, so none is added here. *)
Fixpoint error_Error (e : error) : string :=
  match e with
  | UserError _ text => text
  | PanicError value => "panic: " +:+ fmt_Sprint value
  | RuntimeError text => text
  end
with fmt_Sprint (v : panic_value) : string :=
  match v with
  | PString s => s
  | PInt z => fmt_integer false 0 z
  | PErr e => error_Error e
  end.

(** *** fmt.Sprintf *)

Inductive fmt_arg :=
| FString (s : string)
| FInteger (z : Z)
| FError (e : option error).

Definition pad_left (zero : bool) (width : nat) (s : string) : string :=
  repeat_char (if zero then "0" else " ")%char (width - String.length s) +:+ s.

(** An [error] operand under [%v] or [%s]: the text of its [Error]
    method, or [<nil>]. *)
Definition render_error (e : option error) : string :=
  match e with
  | None => "<nil>"%string
  | Some e' => error_Error e'
  end.

(** One verb applied to one operand.  The package only pairs [%s] with
    strings, [%v] with errors and [%d] with integers; any other pairing
    gives fmt's bad-verb marker, with the operand elided. *)
Definition fmt_verb (verb : ascii) (zero : bool) (width : nat) (a : fmt_arg)
  : string :=
  if Ascii.eqb verb "s" then
    match a with
    | FString s => pad_left zero width s
    | FError e => pad_left zero width (render_error e)
    | FInteger _ => "%!s(BADVERB)"%string
    end
  else if Ascii.eqb verb "v" then
    match a with
    | FString s => pad_left zero width s
    | FError e => pad_left zero width (render_error e)
    | FInteger z => fmt_integer zero width z
    end
  else if Ascii.eqb verb "d" then
    match a with
    | FInteger z => fmt_integer zero width z
    | _ => "%!d(BADVERB)"%string
    end
  else ("%!" +:+ String verb "(BADVERB)")%string.

(** Scanner state: copying literal text, or inside a verb after [%]. *)
Inductive fmt_state :=
| Literal
| InVerb (zero : bool) (width : option nat).

Fixpoint sprintf_scan (st : fmt_state) (format : string) (args : list fmt_arg)
  : string :=
  match format with
  | EmptyString =>
      match st with
      | Literal =>
          match args with
          | [] => EmptyString
          | _ :: _ => "%!(EXTRA)"%string
          end
      | InVerb _ _ => "%!(NOVERB)"%string
      end
  | String c rest =>
      match st with
      | Literal =>
          if Ascii.eqb c "%"
          then sprintf_scan (InVerb false None) rest args
          else String c (sprintf_scan Literal rest args)
      | InVerb zero width =>
          if Ascii.eqb c "%" then String c (sprintf_scan Literal rest args)
          else if Ascii.eqb c "0" && negb (bool_decide (is_Some width))
          then sprintf_scan (InVerb true None) rest args
          else if is_digit c
          then
            let d := Z.to_nat (ascii_code c - 48) in
            sprintf_scan (InVerb zero (Some (10 * default 0%nat width + d)%nat))
              rest args
          else
            match args with
            | [] => ("%!" +:+ String c "(MISSING)")%string
                      +:+ sprintf_scan Literal rest []
            | a :: args' =>
                fmt_verb c zero (default 0%nat width) a
                  +:+ sprintf_scan Literal rest args'
            end
      end
  end.

Definition Sprintf (format : string) (args : list fmt_arg) : string :=
  sprintf_scan Literal format args.

(** ** The world outside the package *)

(** A reading of the wall clock: the calendar date that
    [Format("20060102")] prints, and the values of [Unix] and
    [UnixNano]. *)
Record Time := {
  t_year : Z;
  t_month : Z;
  t_day : Z;
  t_unix : Z;
  t_unixnano : Z
}.

(** [t.Format("20060102")]: four-digit year, two-digit month and day. *)
Definition Time_Format_20060102 (t : Time) : string :=
  time_appendInt (t_year t) 4
    +:+ time_appendInt (t_month t) 2
    +:+ time_appendInt (t_day t) 2.

(** The oracles a generator may consult: successive answers of
    [time.Now] and of [crypto/rand.Read] on a three-byte slice ([None]
    when the source reports an error). *)
Record Env := {
  clock : nat -> Time;
  clock_pos : nat;
  entropy : nat -> option (Byte.byte * Byte.byte * Byte.byte);
  entropy_pos : nat
}.

Definition time_Now (e : Env) : Time * Env :=
  (clock e (clock_pos e),
   {| clock := clock e; clock_pos := S (clock_pos e);
      entropy := entropy e; entropy_pos := entropy_pos e |}).

Definition rand_Read3 (e : Env)
  : option (Byte.byte * Byte.byte * Byte.byte) * Env :=
  (entropy e (entropy_pos e),
   {| clock := clock e; clock_pos := clock_pos e;
      entropy := entropy e; entropy_pos := S (entropy_pos e) |}).

(** Go's [%] on integers truncates towards zero: the sign follows the
    dividend. *)
Definition go_rem (a b : Z) : Z := Z.rem a b.

(** ** generator.go *)

Definition GenerateErrorID (e : Env) : string * Env :=
  let (now, e1) := time_Now e in
  let date := Time_Format_20060102 now in
  let (randomBytes, e2) := rand_Read3 e1 in
  match randomBytes with
  | None =>
      let (now', e3) := time_Now e2 in
      (Sprintf "ERR-%s-%06d"
         [FString date; FInteger (go_rem (t_unixnano now') 1000000)], e3)
  | Some (b0, b1, b2) =>
      let randomHex := hex_EncodeToString [b0; b1; b2] in
      (Sprintf "ERR-%s-%s" [FString date; FString randomHex], e2)
  end.

(** ** error_id.go: the envelope *)

Record ErrorWithID := {
  ID : string;
  Original : option error;
  Context : string;
  StackTrace : string;
  Details : option loc;
  Timestamp : Z
}.

Definition ErrorWithID_Error (e : ErrorWithID) : string :=
  if negb (String.eqb (Context e) "")
  then Sprintf "[%s] %s: %v"
         [FString (ID e); FString (Context e); FError (Original e)]
  else Sprintf "[%s] %v" [FString (ID e); FError (Original e)].

Definition ErrorWithID_Unwrap (e : ErrorWithID) : option error :=
  Original e.

(** ** config.go *)

(** A logger is known by what it is.  Its two operations are calls that
    leave the package: they are recorded in the trace and taken to
    return, as the interface asks of every logger (it never fails the
    wrap).  [Error] is recorded with the five arguments handler.go passes,
    the stack trace last; the declaration in config.go, an older text,
    still lists four. *)
Inductive Logger :=
| DefaultLogger (out : string)
| CustomLogger (name : string).

Definition NewDefaultLogger (out : string) : Logger := DefaultLogger out.

(** [OnError] is user code: given the envelope it either returns
    ([None]) or panics with a value.  [IDGenerator] is user code too: it
    may read the clock and the randomness source and returns an
    identifier; [None] is the nil function value. *)
Record Config := {
  OnError : option (ErrorWithID -> option panic_value);
  AsyncCallback : bool;
  Logger_ : option Logger;
  IncludeStackTrace : bool;
  Environment : string;
  IDGenerator : option (Env -> string * Env)
}.

Definition defaultOnError (err : ErrorWithID) : option panic_value := None.

Definition DefaultConfig : Config :=
  {| OnError := Some defaultOnError;
     AsyncCallback := false;
     Logger_ := Some (NewDefaultLogger "os.Stdout");
     IncludeStackTrace := false;
     Environment := "production";
     IDGenerator := None |}.

(** ** Results, events, store *)

Inductive result (A : Type) :=
| Returned (a : A)
| Panicked (v : panic_value).
Arguments Returned {A} a.
Arguments Panicked {A} v.

(** The panic of calling a nil function value or reading through a nil
    pointer. *)
Definition nil_dereference : panic_value :=
  PErr (RuntimeError "runtime error: invalid memory address or nil pointer dereference").

(** Calls that leave the package, in the order they are made. *)
Inductive Event :=
| EvIDGenerator (id : string)
| EvLoggerError (lg : Logger) (errorID : string) (err : option error)
    (context : string) (details : loc) (stackTrace : string)
| EvLoggerInfo (lg : Logger) (msg : string)
| EvOnError (err : ErrorWithID).

Record Handler := { config : Config }.

(** A goroutine started with [go]. *)
Inductive Task :=
| GoSafeCallback (h : Handler) (err : ErrorWithID).

Record World := {
  env : Env;
  heap : gmap loc (gmap string any);
  trace : list Event;
  goroutines : list Task
}.

Definition with_env (e : Env) (w : World) : World :=
  {| env := e; heap := heap w; trace := trace w; goroutines := goroutines w |}.

Definition with_heap (hp : gmap loc (gmap string any)) (w : World) : World :=
  {| env := env w; heap := hp; trace := trace w; goroutines := goroutines w |}.

Definition emit (ev : Event) (w : World) : World :=
  {| env := env w; heap := heap w; trace := trace w ++ [ev];
     goroutines := goroutines w |}.

Definition spawn (t : Task) (w : World) : World :=
  {| env := env w; heap := heap w; trace := trace w;
     goroutines := goroutines w ++ [t] |}.

(** A map literal or [make(map[string]interface{})]: a new map object at
    a location not yet in use. *)
Definition new_map (m : gmap string any) (w : World) : loc * World :=
  let l := fresh (dom (heap w)) in
  (l, with_heap (<[l := m]> (heap w)) w).

(** [m[k] = v] on the map object at [l]. *)
Definition map_store (l : loc) (k : string) (v : any) (w : World) : World :=
  with_heap (<[l := <[k := v]> (heap w !!! l)]> (heap w)) w.

(** ** The goroutine's call stack and runtime.Stack *)

Record Frame := { fr_func : string; fr_pos : string }.

Record GoStack := { goid : Z; frames : list Frame }.

Definition push (f : Frame) (stk : GoStack) : GoStack :=
  {| goid := goid stk; frames := f :: frames stk |}.

Definition LF : string := String (ascii_of_nat 10) EmptyString.
Definition TAB : string := String (ascii_of_nat 9) EmptyString.

(** One frame of a stack dump: the function, its arguments (elided), and
    on the next line the source position. *)
Definition render_frame (f : Frame) : string :=
  fr_func f +:+ "(...)" +:+ LF +:+ TAB +:+ fr_pos f +:+ LF.

Fixpoint render_frames (fs : list Frame) : string :=
  match fs with
  | [] => EmptyString
  | f :: fs' => render_frame f +:+ render_frames fs'
  end.

Definition dump_header (id : Z) : string :=
  "goroutine " +:+ fmt_integer false 0 id +:+ " [running]:" +:+ LF.

(** The full dump of the calling goroutine, innermost frame first. *)
Definition stack_dump (stk : GoStack) : string :=
  dump_header (goid stk) +:+ render_frames (frames stk).

Fixpoint string_take (n : nat) (s : string) : string :=
  match n, s with
  | S n', String c s' => String c (string_take n' s')
  | _, _ => EmptyString
  end.

(** [runtime.Stack(buf, false)] followed by [string(buf[:n])]: the dump,
    cut at the size of the buffer. *)
Definition runtime_Stack (buf_len : nat) (stk : GoStack) : string :=
  string_take buf_len (stack_dump stk).

Definition pkg : string := "github.com/isaui/go-support-id-error".

Definition frame_captureStackTrace : Frame :=
  {| fr_func := pkg +:+ ".captureStackTrace"; fr_pos := "error_id.go:73" |}.
Definition frame_Handler_WrapWithDetails : Frame :=
  {| fr_func := pkg +:+ ".(*Handler).WrapWithDetails";
     fr_pos := "handler.go:54" |}.
Definition frame_Handler_Wrap : Frame :=
  {| fr_func := pkg +:+ ".(*Handler).Wrap"; fr_pos := "handler.go:34" |}.
Definition frame_Wrap : Frame :=
  {| fr_func := pkg +:+ ".Wrap"; fr_pos := "error_id.go:56" |}.
Definition frame_WrapWithDetails : Frame :=
  {| fr_func := pkg +:+ ".WrapWithDetails"; fr_pos := "error_id.go:61" |}.
Definition frame_Recovery_deferred : Frame :=
  {| fr_func := pkg +:+ ".(*Handler).RecoveryMiddleware.func1.1";
     fr_pos := "middleware.go:37" |}.
Definition frame_runtime_panic : Frame :=
  {| fr_func := "panic"; fr_pos := "runtime/panic.go" |}.

(** error_id.go: [skip] is accepted and not used; [stk] is the stack of
    the caller. *)
Definition captureStackTrace (skip : Z) (stk : GoStack) : string :=
  runtime_Stack 4096 (push frame_captureStackTrace stk).

(** ** handler.go *)

Definition New (cfg : Config) : Handler :=
  let cfg1 :=
    match IDGenerator cfg with
    | None =>
        {| OnError := OnError cfg; AsyncCallback := AsyncCallback cfg;
           Logger_ := Logger_ cfg;
           IncludeStackTrace := IncludeStackTrace cfg;
           Environment := Environment cfg;
           IDGenerator := Some GenerateErrorID |}
    | Some _ => cfg
    end in
  let cfg2 :=
    match Logger_ cfg1 with
    | None =>
        {| OnError := OnError cfg1; AsyncCallback := AsyncCallback cfg1;
           Logger_ := Logger_ DefaultConfig;
           IncludeStackTrace := IncludeStackTrace cfg1;
           Environment := Environment cfg1;
           IDGenerator := IDGenerator cfg1 |}
    | Some _ => cfg1
    end in
  {| config := cfg2 |}.

(** The range loop of [Handler_logError]: every entry of the source map is
    stored into the map at [dst]. *)
Definition copy_entries (src : gmap string any) (dst : loc) (w : World) : World :=
  map_fold (fun k v acc => map_store dst k v acc) w src.

Definition Handler_logError (h : Handler) (err : ErrorWithID) (w : World) : World :=
  match Logger_ (config h) with
  | None => w
  | Some lg =>
      let (details, w1) := new_map ∅ w in
      let w2 :=
        match Details err with
        | None => w1
        | Some user => copy_entries (heap w1 !!! user) details w1
        end in
      let w3 := map_store details "timestamp" (AInt64 (Timestamp err)) w2 in
      emit (EvLoggerError lg (ID err) (Original err) (Context err) details
              (StackTrace err)) w3
  end.

(** [Handler_safeCallback]: the body calls [OnError]; the deferred function
    recovers a panic of the body and reports it through [Logger.Info]. *)
Definition Handler_safeCallback (h : Handler) (err : ErrorWithID) (w : World)
  : result unit * World :=
  let (body, w1) :=
    match OnError (config h) with
    | None => (Panicked nil_dereference, w)
    | Some callback =>
        (match callback err with
         | None => Returned tt
         | Some v => Panicked v
         end, emit (EvOnError err) w)
    end in
  match body with
  | Returned _ => (Returned tt, w1)
  | Panicked r =>
      match Logger_ (config h) with
      | Some lg =>
          (Returned tt,
           emit (EvLoggerInfo lg ("OnError callback panicked: " +:+ fmt_Sprint r))
             w1)
      | None => (Returned tt, w1)
      end
  end.

Definition with_StackTrace (s : string) (e : ErrorWithID) : ErrorWithID :=
  {| ID := ID e; Original := Original e; Context := Context e;
     StackTrace := s; Details := Details e; Timestamp := Timestamp e |}.

Definition Handler_WrapWithDetails (h : Handler) (stk : GoStack) (err : option error)
    (context : string) (details : option loc) (w : World)
  : result (option ErrorWithID) * World :=
  match err with
  | None => (Returned None, w)
  | Some _ =>
      match IDGenerator (config h) with
      | None => (Panicked nil_dereference, w)
      | Some generator =>
          let (errorID, e1) := generator (env w) in
          let w1 := emit (EvIDGenerator errorID) (with_env e1 w) in
          let (now, e2) := time_Now (env w1) in
          let w2 := with_env e2 w1 in
          let wrapped :=
            {| ID := errorID; Original := err; Context := context;
               StackTrace := EmptyString; Details := details;
               Timestamp := t_unix now |} in
          let wrapped :=
            if IncludeStackTrace (config h)
            then with_StackTrace
                   (captureStackTrace 2 (push frame_Handler_WrapWithDetails stk))
                   wrapped
            else wrapped in
          let w3 := Handler_logError h wrapped w2 in
          match OnError (config h) with
          | Some _ =>
              if AsyncCallback (config h)
              then (Returned (Some wrapped), spawn (GoSafeCallback h wrapped) w3)
              else
                let (r, w4) := Handler_safeCallback h wrapped w3 in
                match r with
                | Returned _ => (Returned (Some wrapped), w4)
                | Panicked v => (Panicked v, w4)
                end
          | None => (Returned (Some wrapped), w3)
          end
      end
  end.

Definition Handler_Wrap (h : Handler) (stk : GoStack) (err : option error)
    (context : string) (w : World) : result (option ErrorWithID) * World :=
  Handler_WrapWithDetails h (push frame_Handler_Wrap stk) err context None w.

Definition Handler_Config (h : Handler) : Config := config h.

(** A goroutine runs its task to the end; a panic that leaves it would
    end the process. *)
Definition run_goroutine (t : Task) (w : World) : result unit * World :=
  match t with
  | GoSafeCallback h err => Handler_safeCallback h err w
  end.

(** ** error_id.go: the process-wide handler *)

Record Global := {
  defaultHandler : Handler;
  configureMu : bool;
  configured : bool
}.

Definition initial_Global : Global :=
  {| defaultHandler := New DefaultConfig;
     configureMu := false;
     configured := false |}.

(** How a call on the global state ends: it returns, it panics, or it
    blocks for ever on a mutex that is held. *)
Inductive outcome :=
| Done
| Panic (v : panic_value)
| Blocked.

Definition Configure_panic : panic_value :=
  PString "errorid: Configure() called multiple times. Call Configure() only once at program startup.".

(** [Configure]: lock; the deferred unlock runs on both ways out. *)
Definition Configure (cfg : Config) (g : Global) : outcome * Global :=
  if configureMu g then (Blocked, g)
  else
    let locked :=
      {| defaultHandler := defaultHandler g; configureMu := true;
         configured := configured g |} in
    let (body, g1) :=
      if configured locked then (Panic Configure_panic, locked)
      else
        (Done,
         {| defaultHandler := New cfg; configureMu := configureMu locked;
            configured := true |}) in
    (body,
     {| defaultHandler := defaultHandler g1; configureMu := false;
        configured := configured g1 |}).

Definition Wrap (g : Global) (stk : GoStack) (err : option error)
    (context : string) (w : World) : result (option ErrorWithID) * World :=
  Handler_Wrap (defaultHandler g) (push frame_Wrap stk) err context w.

Definition WrapWithDetails (g : Global) (stk : GoStack)
    (err : option error) (context : string) (details : option loc) (w : World)
  : result (option ErrorWithID) * World :=
  Handler_WrapWithDetails (defaultHandler g) (push frame_WrapWithDetails stk)
    err context details w.

Definition Default (g : Global) : Handler := defaultHandler g.

(** A run of [Configure] calls, each made where its panic, if any, is
    caught, so that the next one is reached. *)
Fixpoint Configure_each (cfgs : list Config) (g : Global)
  : list outcome * Global :=
  match cfgs with
  | [] => ([], g)
  | cfg :: rest =>
      let (o, g1) := Configure cfg g in
      let (os, g2) := Configure_each rest g1 in
      (o :: os, g2)
  end.

(** ** middleware.go *)

Record Request := {
  Method : string;
  URL_Path : string;
  RemoteAddr : string
}.

(** The response as net/http keeps it: the header map the handler may
    still edit, whether the status line has gone out and with which code
    and headers, and the body bytes written so far. *)
Record ResponseWriter := {
  rw_header : gmap string string;
  rw_wroteHeader : bool;
  rw_status : Z;
  rw_sent_header : gmap string string;
  rw_body : string
}.

Definition fresh_ResponseWriter : ResponseWriter :=
  {| rw_header := ∅; rw_wroteHeader := false; rw_status := 0;
     rw_sent_header := ∅; rw_body := EmptyString |}.

Definition Header_Set (k v : string) (rw : ResponseWriter) : ResponseWriter :=
  {| rw_header := <[k := v]> (rw_header rw);
     rw_wroteHeader := rw_wroteHeader rw; rw_status := rw_status rw;
     rw_sent_header := rw_sent_header rw; rw_body := rw_body rw |}.

(** A second [WriteHeader] is superfluous and changes nothing. *)
Definition WriteHeader (code : Z) (rw : ResponseWriter) : ResponseWriter :=
  if rw_wroteHeader rw then rw
  else
    {| rw_header := rw_header rw; rw_wroteHeader := true; rw_status := code;
       rw_sent_header := rw_header rw; rw_body := rw_body rw |}.

(** [Write] sends status 200 first when no status has gone out. *)
Definition Write (b : string) (rw : ResponseWriter) : ResponseWriter :=
  let rw1 := WriteHeader 200 rw in
  {| rw_header := rw_header rw1; rw_wroteHeader := rw_wroteHeader rw1;
     rw_status := rw_status rw1; rw_sent_header := rw_sent_header rw1;
     rw_body := rw_body rw1 +:+ b |}.

Definition StatusInternalServerError : Z := 500.

Record ErrorResponse := {
  resp_ErrorID : string;
  resp_Message : string;
  resp_Timestamp : Z
}.

Definition DQ : string := String (ascii_of_nat 34) EmptyString.

(** An [http.Handler]: user code that may write to the response and
    then returns or panics. *)
Definition http_Handler : Type :=
  ResponseWriter -> Request -> result unit * ResponseWriter.

Definition generic_message : string :=
  "An internal error occurred. Please contact support with this error ID.".

Definition panic_context : string := "panic recovered in HTTP handler".

Section Middleware.

(** encoding/json's rendering of a Go string as a JSON string (quotes
    and escapes); the package does not define it, it is taken as
    given. *)
Variable json_string : string -> string.

(** [json.Marshal] of an [ErrorResponse], field names from the struct
    tags, in declaration order. *)
Definition json_Marshal (r : ErrorResponse) : string :=
  "{" +:+ DQ +:+ "error_id" +:+ DQ +:+ ":" +:+ json_string (resp_ErrorID r)
    +:+ "," +:+ DQ +:+ "message" +:+ DQ +:+ ":" +:+ json_string (resp_Message r)
    +:+ "," +:+ DQ +:+ "timestamp" +:+ DQ +:+ ":"
    +:+ fmt_integer false 0 (resp_Timestamp r) +:+ "}".

(** [json.NewEncoder(w).Encode(v)]: the document and a newline, in one
    write. *)
Definition json_Encode (r : ErrorResponse) (rw : ResponseWriter)
  : ResponseWriter :=
  Write (json_Marshal r +:+ LF) rw.

(** [err] is a pointer; reading a field through nil panics, after the
    header calls have been made. *)
Definition Handler_writeErrorResponse (h : Handler) (rw : ResponseWriter)
    (err : option ErrorWithID) : result unit * ResponseWriter :=
  let rw1 := Header_Set "Content-Type" "application/json" rw in
  let rw2 := WriteHeader StatusInternalServerError rw1 in
  match err with
  | None => (Panicked nil_dereference, rw2)
  | Some e =>
      let message :=
        if String.eqb (Environment (config h)) "development"
        then ErrorWithID_Error e
        else generic_message in
      let response :=
        {| resp_ErrorID := ID e; resp_Message := message;
           resp_Timestamp := Timestamp e |} in
      (Returned tt, json_Encode response rw2)
  end.

(** [RecoveryMiddleware]: [next] runs; the deferred function acts only
    when [next] panicked.  [stk] is the goroutine's stack where the
    panic was raised. *)
Definition Handler_RecoveryMiddleware (h : Handler) (next : http_Handler)
    (stk : GoStack) (rw : ResponseWriter) (r : Request) (w : World)
  : result unit * ResponseWriter * World :=
  let (served, rw1) := next rw r in
  match served with
  | Returned _ => (Returned tt, rw1, w)
  | Panicked rec =>
      let err :=
        match rec with
        | PErr v => v
        | _ => PanicError rec
        end in
      let (details, w1) :=
        new_map (<["method" := AString (Method r)]>
                   (<["path" := AString (URL_Path r)]>
                      (<["remote" := AString (RemoteAddr r)]> ∅))) w in
      let (wrapped, w2) :=
        Handler_WrapWithDetails h
          (push frame_Recovery_deferred (push frame_runtime_panic stk))
          (Some err) panic_context (Some details) w1 in
      match wrapped with
      | Panicked v => (Panicked v, rw1, w2)
      | Returned e =>
          let (written, rw2) := Handler_writeErrorResponse h rw1 e in
          (written, rw2, w2)
      end
  end.

Definition RecoveryMiddleware (g : Global) (next : http_Handler)
  : GoStack -> ResponseWriter -> Request -> World
    -> result unit * ResponseWriter * World :=
  Handler_RecoveryMiddleware (Default g) next.

Definition WriteError (g : Global) (rw : ResponseWriter)
    (err : option ErrorWithID) : result unit * ResponseWriter :=
  Handler_writeErrorResponse (Default g) rw err.

Definition Handler_WriteError (h : Handler) (rw : ResponseWriter)
    (err : option ErrorWithID) : result unit * ResponseWriter :=
  Handler_writeErrorResponse h rw err.

End Middleware.

(** ** The earlier revision of logError

    The source tree also holds, after middleware.go, an earlier text of
    handler.go whose [logError] differs: it works on the caller's map
    itself and stores the stack trace in it, and calls [Error] with four
    arguments.  It is kept apart here; the handler above is the one of
    handler.go. *)
Module Earlier.

Definition Handler_logError (h : Handler) (err : ErrorWithID) (w : World)
  : World :=
  match Logger_ (config h) with
  | None => w
  | Some lg =>
      let (details, w1) :=
        match Details err with
        | Some user => (user, w)
        | None => new_map ∅ w
        end in
      let w2 := map_store details "timestamp" (AInt64 (Timestamp err)) w1 in
      let w3 :=
        if negb (String.eqb (StackTrace err) "")
        then map_store details "stack_trace" (AString (StackTrace err)) w2
        else w2 in
      emit (EvLoggerError lg (ID err) (Original err) (Context err) details
              EmptyString) w3
  end.

End Earlier.

(** ** Specification vocabulary

    Names for the stages and results of a wrap, used to state the
    properties below. *)

(** The envelope a wrap builds, read off the source. *)
Definition built_envelope (h : Handler) (generator : Env -> string * Env)
    (stk : GoStack) (err : error) (context : string) (details : option loc)
    (w : World) : ErrorWithID :=
  {| ID := fst (generator (env w));
     Original := Some err;
     Context := context;
     StackTrace :=
       if IncludeStackTrace (config h)
       then captureStackTrace 2 (push frame_Handler_WrapWithDetails stk)
       else EmptyString;
     Details := details;
     Timestamp := t_unix (fst (time_Now (snd (generator (env w))))) |}.

Definition configured_with (cfg : Config) : Global :=
  {| defaultHandler := New cfg; configureMu := false; configured := true |}.

(** The world when [logError] is entered: the generator has run and the
    clock has been read once more for the timestamp. *)
Definition world_at_log (generator : Env -> string * Env) (w : World) : World :=
  with_env (snd (time_Now (snd (generator (env w)))))
    (emit (EvIDGenerator (fst (generator (env w))))
       (with_env (snd (generator (env w))) w)).

(** What the callback step adds after [logError]. *)
Definition callback_step (h : Handler) (wrapped : ErrorWithID) (w : World)
  : World :=
  match OnError (config h) with
  | None => w
  | Some _ =>
      if AsyncCallback (config h)
      then spawn (GoSafeCallback h wrapped) w
      else snd (Handler_safeCallback h wrapped w)
  end.

(** The map the caller handed over, as [logError] reads it. *)
Definition user_details (details : option loc) (w : World) : gmap string any :=
  match details with
  | None => ∅
  | Some user => heap w !!! user
  end.

(** The calls the callback step makes in the caller's goroutine. *)
Definition callback_events (h : Handler) (wrapped : ErrorWithID) : list Event :=
  match OnError (config h) with
  | None => []
  | Some callback =>
      if AsyncCallback (config h) then []
      else
        EvOnError wrapped ::
        match callback wrapped, Logger_ (config h) with
        | Some r, Some lg =>
            [EvLoggerInfo lg ("OnError callback panicked: " +:+ fmt_Sprint r)]
        | _, _ => []
        end
  end.

(** ** Sample values

    Concrete inputs on which the definitions are run. *)

Definition sample_time : Time :=
  {| t_year := 2025; t_month := 10; t_day := 23;
     t_unix := 1761177600; t_unixnano := 1761177600123456789 |}.

Definition sample_env : Env :=
  {| clock := fun _ => sample_time; clock_pos := 0;
     entropy := fun _ => Some (Byte.xa3, Byte.xf9, Byte.xb2);
     entropy_pos := 0 |}.

(** The same clock with a randomness source that always fails. *)
Definition sample_env_no_entropy : Env :=
  {| clock := fun _ => sample_time; clock_pos := 0;
     entropy := fun _ => None; entropy_pos := 0 |}.

Definition sample_details : gmap string any :=
  <["user_id" := AInt 123]> (<["action" := AString "checkout"]> ∅).

Definition sample_world : World :=
  {| env := sample_env; heap := <[1%positive := sample_details]> ∅;
     trace := []; goroutines := [] |}.

Definition sample_stack : GoStack :=
  {| goid := 1;
     frames := [ {| fr_func := "main.doSomething"; fr_pos := "main.go:43" |};
                 {| fr_func := "main.main"; fr_pos := "main.go:14" |} ] |}.

Definition sample_error : error := UserError 7 "connection timeout".

(** A configuration whose callback always panics. *)
Definition panicking_callback (err : ErrorWithID) : option panic_value :=
  Some (PString "sentry unreachable").

Definition sample_config_panicking : Config :=
  {| OnError := Some panicking_callback; AsyncCallback := false;
     Logger_ := Some (CustomLogger "test"); IncludeStackTrace := false;
     Environment := "production"; IDGenerator := None |}.

(** The goroutines the callback step starts. *)
Definition callback_goroutines (h : Handler) (wrapped : ErrorWithID) : list Task :=
  match OnError (config h) with
  | None => []
  | Some _ => if AsyncCallback (config h) then [GoSafeCallback h wrapped] else []
  end.

(** [strings.HasPrefix] and [strings.Contains]. *)
Fixpoint has_prefix (s prefix : string) {struct prefix} : bool :=
  match prefix, s with
  | EmptyString, _ => true
  | String p prefix', String c s' => Ascii.eqb c p && has_prefix s' prefix'
  | String _ _, EmptyString => false
  end.

Fixpoint contains (s substr : string) : bool :=
  has_prefix s substr
  || match s with
     | EmptyString => false
     | String _ s' => contains s' substr
     end.

(** The frames on top of the caller's when [runtime.Stack] runs inside a
    [Handler.Wrap]. *)
Definition frames_of_Wrap : list Frame :=
  [frame_captureStackTrace; frame_Handler_WrapWithDetails; frame_Handler_Wrap].

Definition sample_config_stack : Config :=
  {| OnError := None; AsyncCallback := false;
     Logger_ := None; IncludeStackTrace := true;
     Environment := "production"; IDGenerator := None |}.

(** A caller whose function name is longer than the capture buffer. *)
Definition giant_invoker : Frame :=
  {| fr_func := "main." +:+ repeat_char "f" (50 * 100); fr_pos := "main.go:9" |}.

(** The identifier format [ERR-\d{8}-[0-9a-f]{6}], as the list of
    character classes a matching string goes through, one per
    character. *)
Fixpoint matches_classes (classes : list (ascii -> bool)) (s : string) : bool :=
  match classes, s with
  | [], EmptyString => true
  | p :: classes', String c s' => p c && matches_classes classes' s'
  | _, _ => false
  end.

Definition id_format : list (ascii -> bool) :=
  [Ascii.eqb "E"; Ascii.eqb "R"; Ascii.eqb "R"; Ascii.eqb "-"]%char
    ++ repeat is_digit 8
    ++ [Ascii.eqb "-"%char]
    ++ repeat is_lower_hex 6.

Definition matches_id_format (id : string) : bool :=
  matches_classes id_format id.

(** [strings.Split(s, sep)] for a one-character separator. *)
Fixpoint split_on (sep : ascii) (s : string) : list string :=
  match s with
  | EmptyString => [EmptyString]
  | String c s' =>
      if Ascii.eqb c sep then EmptyString :: split_on sep s'
      else
        match split_on sep s' with
        | [] => [String c EmptyString]
        | part :: parts => String c part :: parts
        end
  end.

(** A clock reading whose date prints as eight digits and whose
    [UnixNano] is not negative: any moment from 1970 to the end of year
    9999. *)
Definition clock_in_range (t : Time) : bool :=
  (0 <=? t_year t) && (t_year t <=? 9999)
  && (1 <=? t_month t) && (t_month t <=? 12)
  && (1 <=? t_day t) && (t_day t <=? 31)
  && (0 <=? t_unixnano t).

Definition sample_custom_generator (e : Env) : string * Env :=
  ("CUSTOM-ID-123"%string, e).

Definition sample_config_custom : Config :=
  {| OnError := None; AsyncCallback := false; Logger_ := None;
     IncludeStackTrace := false; Environment := "production";
     IDGenerator := Some sample_custom_generator |}.

(** The failure a recovered panic value stands for: itself when it is
    an error, a [panicError] around it otherwise. *)
Definition recovered_error (rec : panic_value) : error :=
  match rec with
  | PErr v => v
  | _ => PanicError rec
  end.

(** The message the response carries under a given environment. *)
Definition response_message (environment : string) (e : ErrorWithID) : string :=
  if String.eqb environment "development"
  then ErrorWithID_Error e
  else generic_message.

Definition sample_request : Request :=
  {| Method := "GET"; URL_Path := "/panic"; RemoteAddr := "127.0.0.1:51234" |}.

(** A handler that panics at once. *)
Definition handler_panics : http_Handler :=
  fun rw r => (Panicked (PString "index out of range"), rw).

(** A handler that sends status 200 and part of a body, then panics. *)
Definition handler_writes_then_panics : http_Handler :=
  fun rw r =>
    (Panicked (PString "index out of range"),
     Write "partial" (WriteHeader 200 rw)).

(** A stand-in for the JSON string encoder on text that needs no
    escapes. *)
Definition plain_json_string (s : string) : string := DQ +:+ s +:+ DQ.

Definition sample_config_development : Config :=
  {| OnError := None; AsyncCallback := false; Logger_ := None;
     IncludeStackTrace := false; Environment := "development";
     IDGenerator := None |}.

(** ** Further vocabulary

    Counting calls in a trace, runs of wraps, and sample values for the
    properties of the last part. *)

Definition is_IDGenerator (ev : Event) : bool :=
  match ev with EvIDGenerator _ => true | _ => false end.

Definition is_LoggerError (ev : Event) : bool :=
  match ev with EvLoggerError _ _ _ _ _ _ => true | _ => false end.

Definition is_LoggerInfo (ev : Event) : bool :=
  match ev with EvLoggerInfo _ _ => true | _ => false end.

Definition is_OnError (ev : Event) : bool :=
  match ev with EvOnError _ => true | _ => false end.

Fixpoint count_calls (p : Event -> bool) (t : list Event) : nat :=
  match t with
  | [] => 0
  | ev :: t' => (if p ev then 1 else 0) + count_calls p t'
  end.

(** A run of [WrapWithDetails] calls on one handler, one after the
    other, from the same caller; a panic ends the run. *)
Fixpoint WrapWithDetails_each (h : Handler) (stk : GoStack)
    (calls : list (option error * string * option loc)) (w : World)
  : result (list (option ErrorWithID)) * World :=
  match calls with
  | [] => (Returned [], w)
  | (err, context, details) :: rest =>
      let (r, w1) := Handler_WrapWithDetails h stk err context details w in
      match r with
      | Panicked v => (Panicked v, w1)
      | Returned e =>
          let (rs, w2) := WrapWithDetails_each h stk rest w1 in
          match rs with
          | Panicked v => (Panicked v, w2)
          | Returned es => (Returned (e :: es), w2)
          end
      end
  end.

(** The failures of a run that are not nil. *)
Fixpoint wrapped_calls (calls : list (option error * string * option loc))
  : nat :=
  match calls with
  | [] => 0
  | (Some _, _, _) :: rest => S (wrapped_calls rest)
  | (None, _, _) :: rest => wrapped_calls rest
  end.

(** The value of a lower-case hex digit, and the byte two of them spell;
    used to read identifiers back. *)
Definition hex_value (c : ascii) : option N :=
  let n := ascii_code c in
  if (48 <=? n) && (n <=? 57) then Some (Z.to_N (n - 48))
  else if (97 <=? n) && (n <=? 102) then Some (Z.to_N (n - 87))
  else None.

Fixpoint hex_decode (s : string) : option (list N) :=
  match s with
  | EmptyString => Some []
  | String hi (String lo rest) =>
      match hex_value hi, hex_value lo, hex_decode rest with
      | Some h, Some l, Some bytes => Some ((16 * h + l)%N :: bytes)
      | _, _, _ => None
      end
  | String _ EmptyString => None
  end.

(** A handler value that did not come from [New]: the zero
    configuration. *)
Definition zero_Config : Config :=
  {| OnError := None; AsyncCallback := false; Logger_ := None;
     IncludeStackTrace := false; Environment := EmptyString;
     IDGenerator := None |}.

Definition zero_Handler : Handler := {| config := zero_Config |}.

(** A handler that writes a complete response and returns. *)
Definition handler_ok : http_Handler :=
  fun rw r =>
    (Returned tt,
     Write "ok" (WriteHeader 200 (Header_Set "Content-Type" "text/plain" rw))).

Definition returning_callback (err : ErrorWithID) : option panic_value := None.


Definition sample_config_sync : Config :=
  {| OnError := Some returning_callback; AsyncCallback := false;
     Logger_ := Some (CustomLogger "test"); IncludeStackTrace := false;
     Environment := "production"; IDGenerator := None |}.

(** A handler with a generator and nothing else, as code inside the
    package can build one. *)
Definition bare_Handler : Handler :=
  {| config :=
       {| OnError := Some panicking_callback; AsyncCallback := false;
          Logger_ := None; IncludeStackTrace := false;
          Environment := EmptyString; IDGenerator := Some GenerateErrorID |} |}.

Definition sample_envelope : ErrorWithID :=
  {| ID := "ERR-20251023-a3f9b2"; Original := Some sample_error;
     Context := "database connection failed"; StackTrace := EmptyString;
     Details := None; Timestamp := 1761177600 |}.

(** The same identifier and timestamp around a different failure. *)
Definition sample_envelope_other : ErrorWithID :=
  {| ID := "ERR-20251023-a3f9b2";
     Original := Some (UserError 8 "password=hunter2 rejected");
     Context := "login"; StackTrace := "goroutine 1 [running]:";
     Details := Some 1%positive; Timestamp := 1761177600 |}.

(** The last [k] decimal digits of [x], most significant first. *)
Fixpoint pad_digits (k : nat) (x : Z) : string :=
  match k with
  | O => EmptyString
  | S k' => pad_digits k' (x / 10) +:+ String (digit_char (x mod 10)) EmptyString
  end.

(** A calendar date as one number, [yyyymmdd]. *)
Definition date_number (t : Time) : Z :=
  t_year t * 10000 + t_month t * 100 + t_day t.

Definition env_reading (t : Time) (bytes : option (Byte.byte * Byte.byte * Byte.byte))
  : Env :=
  {| clock := fun _ => t; clock_pos := 0;
     entropy := fun _ => bytes; entropy_pos := 0 |}.

Definition sample_time_next_day : Time :=
  {| t_year := 2025; t_month := 10; t_day := 24;
     t_unix := 1761264000; t_unixnano := 1761264000000000000 |}.

(** * Properties *)

(** ** Formatting examples *)

Example Sprintf_fallback_shape :
  Sprintf "ERR-%s-%06d" [FString "20251023"; FInteger 4217]
  = "ERR-20251023-004217"%string.
Proof. reflexivity. Qed.

Example Sprintf_negative_06d :
  Sprintf "%06d" [FInteger (-5)] = "-00005"%string.
Proof. reflexivity. Qed.

Example panicError_text :
  error_Error (PanicError (PString "boom")) = "panic: boom"%string.
Proof. reflexivity. Qed.

(** ** Handlers made by New *)

Lemma New_has_generator (cfg : Config) :
  IDGenerator (config (New cfg))
  = Some (default GenerateErrorID (IDGenerator cfg)).
Proof. unfold New. destruct cfg as [o a [lg|] i e [g|]]; reflexivity. Qed.

Lemma New_has_logger (cfg : Config) :
  Logger_ (config (New cfg))
  = Some (default (NewDefaultLogger "os.Stdout") (Logger_ cfg)).
Proof. unfold New. destruct cfg as [o a [lg|] i e [g|]]; reflexivity. Qed.

Lemma New_keeps_settings (cfg : Config) :
  OnError (config (New cfg)) = OnError cfg
  /\ AsyncCallback (config (New cfg)) = AsyncCallback cfg
  /\ IncludeStackTrace (config (New cfg)) = IncludeStackTrace cfg
  /\ Environment (config (New cfg)) = Environment cfg.
Proof. unfold New. destruct cfg as [o a [lg|] i e [g|]]; repeat split. Qed.

(** ** The callback boundary *)

Lemma safeCallback_returns (h : Handler) (err : ErrorWithID) (w : World) :
  fst (Handler_safeCallback h err w) = Returned tt.
Proof.
  unfold Handler_safeCallback.
  destruct (OnError (config h)) as [callback|].
  - destruct (callback err); [destruct (Logger_ (config h))|]; reflexivity.
  - destruct (Logger_ (config h)); reflexivity.
Qed.

Lemma WrapWithDetails_returns (h : Handler) generator stk err context details w :
  IDGenerator (config h) = Some generator ->
  fst (Handler_WrapWithDetails h stk (Some err) context details w)
  = Returned (Some (built_envelope h generator stk err context details w)).
Proof.
  intros Hgen. unfold Handler_WrapWithDetails, built_envelope. rewrite Hgen.
  destruct (generator (env w)) as [errorID e1]. unfold time_Now. cbn [fst snd].
  destruct (IncludeStackTrace (config h));
    (destruct (OnError (config h)) as [cb|] eqn:Hcb; [|reflexivity];
     destruct (AsyncCallback (config h)); [reflexivity|];
     match goal with
     | |- context [Handler_safeCallback ?a ?b ?c] =>
         pose proof (safeCallback_returns a b c) as Hs;
         destruct (Handler_safeCallback a b c) as [r w4]
     end; cbn [fst] in Hs; subst r; reflexivity).
Qed.

(** ** Strings *)

#[local] Arguments String.append !s1 s2 : simpl nomatch.

Lemma string_app_nil_r (s : string) : s +:+ "" = s.
Proof. induction s as [|c s IH]; cbn; [reflexivity | now rewrite IH]. Qed.

Lemma string_app_assoc (a b c : string) : (a +:+ b) +:+ c = a +:+ (b +:+ c).
Proof. induction a as [|x a IH]; cbn; [reflexivity | now rewrite IH]. Qed.

Lemma string_app_length (a b : string) :
  String.length (a +:+ b) = (String.length a + String.length b)%nat.
Proof. induction a as [|x a IH]; cbn; [reflexivity | now rewrite IH]. Qed.

Lemma pad_left_0 (zero : bool) (s : string) : pad_left zero 0 s = s.
Proof. reflexivity. Qed.

(** ** The envelope (error_id.go) *)

(** C7. The description of an envelope is [[id] context: original] when
    the context is not empty and [[id] original] when it is, where
    original is the text of the wrapped failure; it is computed from the
    identifier, the context and the wrapped failure alone, so describing
    the same envelope again, or one that differs only in stack trace,
    details or timestamp, gives the same string. *)
Theorem describe_renders_id_context_original (e : ErrorWithID) :
  ErrorWithID_Error e
  = (if String.eqb (Context e) ""
     then "[" +:+ ID e +:+ "] " +:+ render_error (Original e)
     else "[" +:+ ID e +:+ "] " +:+ Context e +:+ ": "
            +:+ render_error (Original e))
  /\ (forall (st : string) (d : option loc) (ts : Z),
        ErrorWithID_Error
          {| ID := ID e; Original := Original e; Context := Context e;
             StackTrace := st; Details := d; Timestamp := ts |}
        = ErrorWithID_Error e).
Proof.
  split; [|reflexivity].
  unfold ErrorWithID_Error, Sprintf.
  destruct (String.eqb (Context e) ""); cbn;
    rewrite !pad_left_0, !string_app_nil_r; reflexivity.
Qed.

Example describe_with_context :
  ErrorWithID_Error
    {| ID := "ERR-20251023-a3f9b2"; Original := Some (UserError 1 "connection timeout");
       Context := "database connection failed"; StackTrace := "";
       Details := None; Timestamp := 1761177600 |}
  = "[ERR-20251023-a3f9b2] database connection failed: connection timeout"%string.
Proof. reflexivity. Qed.

Example describe_without_context :
  ErrorWithID_Error
    {| ID := "ERR-20251023-a3f9b2"; Original := Some (UserError 1 "connection timeout");
       Context := ""; StackTrace := ""; Details := None; Timestamp := 0 |}
  = "[ERR-20251023-a3f9b2] connection timeout"%string.
Proof. reflexivity. Qed.

(** ** Wrapping nothing *)

(** C2. Wrapping an absent failure returns absent and leaves the world
    exactly as it was, for every handler, context and details map: no
    identifier is generated (the generator, the clock and the randomness
    source are not consulted), nothing is logged, the callback is not
    called and no goroutine is started.  The same holds for [Wrap] and
    for the two process-wide forwarders. *)
Theorem wrap_nil_is_noop (h : Handler) (g : Global) (stk : GoStack)
    (context : string) (details : option loc) (w : World) :
  Handler_WrapWithDetails h stk None context details w = (Returned None, w)
  /\ Handler_Wrap h stk None context w = (Returned None, w)
  /\ WrapWithDetails g stk None context details w = (Returned None, w)
  /\ Wrap g stk None context w = (Returned None, w).
Proof. repeat split. Qed.

(** ** Unwrapping *)

(** C8. For every failure [err] and context, a handler made by [New]
    returns an envelope from [Wrap] (and from [WrapWithDetails]) whose
    [Unwrap] is that same failure value, identity included. *)
Theorem unwrap_wrap_same_failure (cfg : Config) (stk : GoStack) (err : error)
    (context : string) (details : option loc) (w : World) :
  (exists wrapped,
      fst (Handler_Wrap (New cfg) stk (Some err) context w)
      = Returned (Some wrapped)
      /\ ErrorWithID_Unwrap wrapped = Some err)
  /\ (exists wrapped,
         fst (Handler_WrapWithDetails (New cfg) stk (Some err) context details w)
         = Returned (Some wrapped)
         /\ ErrorWithID_Unwrap wrapped = Some err).
Proof.
  split; eexists; (split; [|shelve]).
  - unfold Handler_Wrap. apply WrapWithDetails_returns, New_has_generator.
  - apply WrapWithDetails_returns, New_has_generator.
  Unshelve. all: reflexivity.
Qed.

(** ** The process-wide handler *)

Lemma Configure_first (cfg : Config) :
  Configure cfg initial_Global = (Done, configured_with cfg).
Proof. reflexivity. Qed.

Lemma Configure_again (cfg cfg' : Config) :
  Configure cfg' (configured_with cfg) = (Panic Configure_panic, configured_with cfg).
Proof. reflexivity. Qed.

Lemma Configure_each_again (cfg : Config) (later : list Config) :
  Configure_each later (configured_with cfg)
  = (map (fun _ => Panic Configure_panic) later, configured_with cfg).
Proof.
  induction later as [|cfg' later IH]; [reflexivity|].
  cbn [Configure_each map]. rewrite Configure_again, IH. reflexivity.
Qed.

(** C4. The first [Configure] of the process returns normally and
    installs the handler made from the given configuration (its callback,
    mode, stack-trace switch and environment as given, a nil generator or
    logger replaced by the default); every later [Configure], however
    many follow and whatever they pass, panics (the mutex is released on
    the way out, so none of them blocks, and none returns normally). *)
Theorem configure_once_then_panics (cfg : Config) (later : list Config) :
  fst (Configure cfg initial_Global) = Done
  /\ Default (snd (Configure cfg initial_Global)) = New cfg
  /\ OnError (config (Default (snd (Configure cfg initial_Global))))
     = OnError cfg
  /\ AsyncCallback (config (Default (snd (Configure cfg initial_Global))))
     = AsyncCallback cfg
  /\ IncludeStackTrace (config (Default (snd (Configure cfg initial_Global))))
     = IncludeStackTrace cfg
  /\ Environment (config (Default (snd (Configure cfg initial_Global))))
     = Environment cfg
  /\ configured (snd (Configure cfg initial_Global)) = true
  /\ length (fst (Configure_each later (snd (Configure cfg initial_Global))))
     = length later
  /\ Forall (fun o => o = Panic Configure_panic)
       (fst (Configure_each later (snd (Configure cfg initial_Global)))).
Proof.
  rewrite Configure_first. cbn [fst snd Default defaultHandler configured_with].
  destruct (New_keeps_settings cfg) as (Hon & Hasync & Hstack & Henv).
  repeat (split; [assumption || reflexivity|]).
  rewrite Configure_each_again. cbn [fst]. split; [apply length_map|].
  induction later; constructor; auto.
Qed.

(** C10. Once [Configure] has succeeded, a later [Configure] panics
    without changing the process-wide state: after any number of such
    calls [Default] is still the handler of the first configuration, and
    [Wrap] and [WrapWithDetails] still go to it. *)
Theorem failed_configure_keeps_handler (cfg : Config) (later : list Config)
    (stk : GoStack) (err : option error) (context : string)
    (details : option loc) (w : World) :
  let g1 := snd (Configure cfg initial_Global) in
  let g2 := snd (Configure_each later g1) in
  g2 = g1
  /\ Default g2 = New cfg
  /\ config (Default g2) = config (New cfg)
  /\ Wrap g2 stk err context w
     = Handler_Wrap (New cfg) (push frame_Wrap stk) err context w
  /\ WrapWithDetails g2 stk err context details w
     = Handler_WrapWithDetails (New cfg) (push frame_WrapWithDetails stk)
         err context details w.
Proof.
  cbv zeta. rewrite Configure_first. cbn [snd].
  rewrite Configure_each_again. cbn [snd]. repeat split.
Qed.

Example configure_twice :
  fst (Configure_each [DefaultConfig; DefaultConfig] initial_Global)
  = [Done; Panic Configure_panic].
Proof. reflexivity. Qed.

(** ** The stages of a wrap *)

Lemma after_safeCallback (h : Handler) (e : ErrorWithID) (w : World)
    (x : option ErrorWithID) :
  (let (r, w4) := Handler_safeCallback h e w in
   match r with
   | Returned _ => (Returned x, w4)
   | Panicked v => (Panicked v, w4)
   end) = (Returned x, snd (Handler_safeCallback h e w)).
Proof.
  pose proof (safeCallback_returns h e w) as Hs.
  destruct (Handler_safeCallback h e w) as [r w4]. cbn [fst] in Hs.
  subst r. reflexivity.
Qed.

Lemma WrapWithDetails_world (h : Handler) generator stk err context details w :
  IDGenerator (config h) = Some generator ->
  snd (Handler_WrapWithDetails h stk (Some err) context details w)
  = callback_step h (built_envelope h generator stk err context details w)
      (Handler_logError h
         (built_envelope h generator stk err context details w)
         (world_at_log generator w)).
Proof.
  intros Hgen.
  unfold Handler_WrapWithDetails, built_envelope, callback_step, world_at_log.
  rewrite Hgen.
  destruct (generator (env w)) as [errorID e1]. unfold time_Now. cbn [fst snd].
  destruct (IncludeStackTrace (config h));
    (destruct (OnError (config h)) as [cb|] eqn:Hcb; [|reflexivity];
     destruct (AsyncCallback (config h)); [reflexivity|];
     rewrite after_safeCallback; reflexivity).
Qed.

Lemma safeCallback_heap (h : Handler) (err : ErrorWithID) (w : World) :
  heap (snd (Handler_safeCallback h err w)) = heap w
  /\ env (snd (Handler_safeCallback h err w)) = env w
  /\ goroutines (snd (Handler_safeCallback h err w)) = goroutines w.
Proof.
  unfold Handler_safeCallback.
  destruct (OnError (config h)) as [cb|];
    [destruct (cb err)|]; destruct (Logger_ (config h)); repeat split.
Qed.

Lemma callback_step_heap (h : Handler) (wrapped : ErrorWithID) (w : World) :
  heap (callback_step h wrapped w) = heap w.
Proof.
  unfold callback_step. destruct (OnError (config h)); [|reflexivity].
  destruct (AsyncCallback (config h)); [reflexivity|].
  apply safeCallback_heap.
Qed.

(** *** The copy made for the logger *)

Lemma World_eq (w1 w2 : World) :
  env w1 = env w2 -> heap w1 = heap w2 -> trace w1 = trace w2 ->
  goroutines w1 = goroutines w2 -> w1 = w2.
Proof. destruct w1, w2; cbn; intros; subst; reflexivity. Qed.

Lemma copy_entries_spec (src m0 : gmap string any) (dst : loc) (w : World) :
  heap w !! dst = Some m0 ->
  copy_entries src dst w = with_heap (<[dst := src ∪ m0]> (heap w)) w.
Proof.
  intros Hdst. unfold copy_entries.
  apply (map_fold_weak_ind
           (fun (r : World) (m : gmap string any) =>
              r = with_heap (<[dst := m ∪ m0]> (heap w)) w)).
  - rewrite (left_id_L ∅ (∪)). rewrite insert_id by exact Hdst.
    destruct w; reflexivity.
  - intros k v m r Hk ->. unfold map_store, with_heap. cbn.
    rewrite lookup_total_insert_eq, insert_insert_eq, insert_union_l.
    reflexivity.
Qed.

Lemma fresh_loc_unused (hp : gmap loc (gmap string any)) :
  hp !! fresh (dom hp) = None.
Proof. apply not_elem_of_dom, is_fresh. Qed.

Lemma lookup_total_after_alloc (hp : gmap loc (gmap string any)) (u : loc) :
  <[fresh (dom hp) := ∅]> hp !!! u = hp !!! u.
Proof.
  destruct (decide (fresh (dom hp) = u)) as [<-|Hne].
  - rewrite lookup_total_insert_eq, lookup_total_alt, fresh_loc_unused.
    reflexivity.
  - apply lookup_total_insert_ne; exact Hne.
Qed.

(** [logError] with a logger: one new map object holding the caller's
    entries and the timestamp, and one call of [Logger.Error]. *)
Lemma logError_spec (h : Handler) (lg : Logger) (err : ErrorWithID) (w : World) :
  Logger_ (config h) = Some lg ->
  Handler_logError h err w
  = emit (EvLoggerError lg (ID err) (Original err) (Context err)
            (fresh (dom (heap w))) (StackTrace err))
      (with_heap
         (<[fresh (dom (heap w)) :=
              <["timestamp" := AInt64 (Timestamp err)]>
                (user_details (Details err) w)]> (heap w)) w).
Proof.
  intros Hlg. unfold Handler_logError, new_map, user_details. rewrite Hlg.
  set (l := fresh (dom (heap w))).
  destruct (Details err) as [user|].
  - rewrite (copy_entries_spec _ ∅) by apply lookup_insert_eq.
    unfold map_store, with_heap, emit; cbn.
    rewrite lookup_total_insert_eq, !insert_insert_eq.
    subst l. rewrite lookup_total_after_alloc, (right_id_L ∅ (∪)).
    reflexivity.
  - unfold map_store, with_heap, emit; cbn.
    rewrite lookup_total_insert_eq, insert_insert_eq. reflexivity.
Qed.

Lemma logError_without_logger (h : Handler) (err : ErrorWithID) (w : World) :
  Logger_ (config h) = None -> Handler_logError h err w = w.
Proof. intros Hlg. unfold Handler_logError. now rewrite Hlg. Qed.

Lemma callback_step_trace (h : Handler) (wrapped : ErrorWithID) (w : World) :
  trace (callback_step h wrapped w) = trace w ++ callback_events h wrapped.
Proof.
  unfold callback_step, callback_events, Handler_safeCallback.
  destruct (OnError (config h)) as [cb|]; [|now rewrite app_nil_r].
  destruct (AsyncCallback (config h)); [now rewrite app_nil_r|].
  destruct (cb wrapped); [destruct (Logger_ (config h))|]; cbn;
    rewrite <- ?app_assoc; reflexivity.
Qed.

Lemma WrapWithDetails_heap (h : Handler) generator lg stk err context details w :
  IDGenerator (config h) = Some generator ->
  Logger_ (config h) = Some lg ->
  heap (snd (Handler_WrapWithDetails h stk (Some err) context details w))
  = <[fresh (dom (heap w)) :=
        <["timestamp" :=
            AInt64 (Timestamp
                      (built_envelope h generator stk err context details w))]>
          (user_details details w)]> (heap w).
Proof.
  intros Hgen Hlg. rewrite (WrapWithDetails_world _ _ _ _ _ _ _ Hgen).
  rewrite callback_step_heap, (logError_spec _ _ _ _ Hlg). reflexivity.
Qed.

Lemma WrapWithDetails_trace (h : Handler) generator lg stk err context details w :
  IDGenerator (config h) = Some generator ->
  Logger_ (config h) = Some lg ->
  trace (snd (Handler_WrapWithDetails h stk (Some err) context details w))
  = trace w
      ++ [EvIDGenerator (fst (generator (env w)));
          EvLoggerError lg (fst (generator (env w))) (Some err) context
            (fresh (dom (heap w)))
            (StackTrace (built_envelope h generator stk err context details w))]
      ++ callback_events h (built_envelope h generator stk err context details w).
Proof.
  intros Hgen Hlg. rewrite (WrapWithDetails_world _ _ _ _ _ _ _ Hgen).
  rewrite callback_step_trace, (logError_spec _ _ _ _ Hlg). cbn.
  rewrite <- !app_assoc. reflexivity.
Qed.

(** ** Detail isolation *)

(** C1. A handler made by [New] wraps a failure with a caller-supplied
    details map: the call returns the envelope; the caller's map, like
    every map object that existed before the call, holds afterwards
    exactly what it held before; the logger is called once, with a map
    object that did not exist before (so it is not the caller's) holding
    the caller's entries and the timestamp; the stack trace goes to the
    logger as the last argument of that call, and the copy's
    [stack_trace] key, like every key but [timestamp], is whatever the
    caller had put there. *)
Theorem wrap_never_mutates_details (cfg : Config) (stk : GoStack) (err : error)
    (context : string) (user : loc) (m : gmap string any) (w : World) :
  heap w !! user = Some m ->
  let h := New cfg in
  let lg := default (NewDefaultLogger "os.Stdout") (Logger_ cfg) in
  let wrapped :=
    built_envelope h (default GenerateErrorID (IDGenerator cfg)) stk err
      context (Some user) w in
  let w' := snd (Handler_WrapWithDetails h stk (Some err) context (Some user) w) in
  let copy := fresh (dom (heap w)) in
  fst (Handler_WrapWithDetails h stk (Some err) context (Some user) w)
  = Returned (Some wrapped)
  /\ (forall l : loc, is_Some (heap w !! l) -> heap w' !! l = heap w !! l)
  /\ heap w' !! user = Some m
  /\ heap w !! copy = None
  /\ copy <> user
  /\ heap w' !! copy = Some (<["timestamp" := AInt64 (Timestamp wrapped)]> m)
  /\ trace w'
     = trace w
         ++ [EvIDGenerator (ID wrapped);
             EvLoggerError lg (ID wrapped) (Some err) context copy
               (StackTrace wrapped)]
         ++ callback_events h wrapped
  /\ (forall k : string,
        k <> "timestamp"%string ->
        (<["timestamp" := AInt64 (Timestamp wrapped)]> m) !! k = m !! k).
Proof.
  intros Huser h lg wrapped w' copy.
  pose proof (New_has_generator cfg) as Hgen.
  pose proof (New_has_logger cfg) as Hlg.
  assert (Hfresh : heap w !! copy = None) by apply fresh_loc_unused.
  assert (Hne : copy <> user) by (intros ->; congruence).
  assert (Hheap : heap w'
                  = <[copy := <["timestamp" := AInt64 (Timestamp wrapped)]> m]>
                      (heap w)).
  { subst w'. rewrite (WrapWithDetails_heap _ _ _ _ _ _ _ _ Hgen Hlg).
    unfold user_details. rewrite (lookup_total_correct _ _ _ Huser).
    reflexivity. }
  split; [apply WrapWithDetails_returns, Hgen|].
  split.
  { intros l [x Hl]. rewrite Hheap. apply lookup_insert_ne. congruence. }
  split; [rewrite Hheap, lookup_insert_ne; auto|].
  split; [exact Hfresh|].
  split; [exact Hne|].
  split; [rewrite Hheap; apply lookup_insert_eq|].
  split; [subst w'; apply (WrapWithDetails_trace _ _ _ _ _ _ _ _ Hgen Hlg)|].
  intros k Hk. apply lookup_insert_ne. congruence.
Qed.

Lemma wrap_never_mutates_details_witness :
  heap sample_world !! 1%positive = Some sample_details
  /\ heap (snd (Handler_WrapWithDetails (New DefaultConfig) sample_stack
                  (Some sample_error) "database connection failed"
                  (Some 1%positive) sample_world)) !! 1%positive
     = Some sample_details.
Proof.
  split; [reflexivity|].
  exact (proj1 (proj2 (proj2
           (wrap_never_mutates_details DefaultConfig sample_stack sample_error
              "database connection failed" 1%positive sample_details
              sample_world eq_refl)))).
Defined.

(** ** Callback faults *)

Lemma callback_step_goroutines (h : Handler) (wrapped : ErrorWithID) (w : World) :
  goroutines (callback_step h wrapped w)
  = goroutines w ++ callback_goroutines h wrapped.
Proof.
  unfold callback_step, callback_goroutines.
  destruct (OnError (config h)); [|now rewrite app_nil_r].
  destruct (AsyncCallback (config h)); [reflexivity|].
  rewrite app_nil_r. apply safeCallback_heap.
Qed.

Lemma WrapWithDetails_goroutines (h : Handler) generator stk err context details w :
  IDGenerator (config h) = Some generator ->
  goroutines (snd (Handler_WrapWithDetails h stk (Some err) context details w))
  = goroutines w
      ++ callback_goroutines h
           (built_envelope h generator stk err context details w).
Proof.
  intros Hgen. rewrite (WrapWithDetails_world _ _ _ _ _ _ _ Hgen).
  rewrite callback_step_goroutines. f_equal.
  destruct (Logger_ (config h)) as [lg|] eqn:Hlg.
  - rewrite (logError_spec _ _ _ _ Hlg). reflexivity.
  - rewrite (logError_without_logger _ _ _ Hlg). reflexivity.
Qed.

(** A panicking callback inside [safeCallback]: the call returns, and the
    trace gains the callback call followed by one [Logger.Info] line. *)
Lemma safeCallback_recovers (h : Handler) callback lg r (err : ErrorWithID)
    (w : World) :
  OnError (config h) = Some callback ->
  Logger_ (config h) = Some lg ->
  callback err = Some r ->
  Handler_safeCallback h err w
  = (Returned tt,
     emit (EvLoggerInfo lg ("OnError callback panicked: " +:+ fmt_Sprint r))
       (emit (EvOnError err) w)).
Proof.
  intros Hcb Hlg Hr. unfold Handler_safeCallback. now rewrite Hcb, Hr, Hlg.
Qed.

(** C6. A callback that panics during a wrap: the handler (made by
    [New], so a logger is present) recovers the panic, reports it with
    one [Logger.Info] line, and the wrap returns the envelope.  In
    synchronous mode the callback call and the Info line are the last
    two calls of the wrap; in asynchronous mode the wrap only starts a
    goroutine, and that goroutine, whenever it runs, ends normally after
    the same two calls.  On any handler, with or without a logger,
    [safeCallback] returns and never passes a panic on. *)
Theorem callback_panic_is_contained (cfg : Config)
    (callback : ErrorWithID -> option panic_value) (r : panic_value)
    (stk : GoStack) (err : error) (context : string) (details : option loc)
    (w : World) :
  let h := New cfg in
  let lg := default (NewDefaultLogger "os.Stdout") (Logger_ cfg) in
  let wrapped :=
    built_envelope h (default GenerateErrorID (IDGenerator cfg)) stk err
      context details w in
  let info :=
    EvLoggerInfo lg ("OnError callback panicked: " +:+ fmt_Sprint r) in
  let w' := snd (Handler_WrapWithDetails h stk (Some err) context details w) in
  OnError cfg = Some callback ->
  callback wrapped = Some r ->
  fst (Handler_WrapWithDetails h stk (Some err) context details w)
  = Returned (Some wrapped)
  /\ trace w'
     = trace w
         ++ [EvIDGenerator (ID wrapped);
             EvLoggerError lg (ID wrapped) (Some err) context
               (fresh (dom (heap w))) (StackTrace wrapped)]
         ++ (if AsyncCallback cfg then [] else [EvOnError wrapped; info])
  /\ goroutines w'
     = goroutines w
         ++ (if AsyncCallback cfg then [GoSafeCallback h wrapped] else [])
  /\ (forall w0 : World,
        run_goroutine (GoSafeCallback h wrapped) w0
        = (Returned tt, emit info (emit (EvOnError wrapped) w0)))
  /\ (forall (h0 : Handler) (e0 : ErrorWithID) (w0 : World),
        fst (Handler_safeCallback h0 e0 w0) = Returned tt).
Proof.
  intros h lg wrapped info w' Hcb Hr. subst h lg wrapped info w'.
  pose proof (New_has_generator cfg) as Hgen.
  pose proof (New_has_logger cfg) as Hlg.
  destruct (New_keeps_settings cfg) as (Hon & Hasync & _).
  rewrite Hcb in Hon.
  split; [apply WrapWithDetails_returns, Hgen|].
  split.
  { rewrite (WrapWithDetails_trace _ _ _ _ _ _ _ _ Hgen Hlg).
    do 2 f_equal. unfold callback_events.
    rewrite Hon, Hasync. destruct (AsyncCallback cfg); [reflexivity|].
    rewrite Hr, Hlg. reflexivity. }
  split.
  { rewrite (WrapWithDetails_goroutines _ _ _ _ _ _ _ Hgen).
    f_equal. unfold callback_goroutines. rewrite Hon, Hasync.
    reflexivity. }
  split; [|apply safeCallback_returns].
  intros w0. cbn [run_goroutine].
  apply (safeCallback_recovers _ callback); assumption.
Qed.

Lemma callback_panic_is_contained_witness :
  OnError sample_config_panicking = Some panicking_callback
  /\ fst (Handler_WrapWithDetails (New sample_config_panicking) sample_stack
            (Some sample_error) "database connection failed" None sample_world)
     = Returned
         (Some (built_envelope (New sample_config_panicking) GenerateErrorID
                  sample_stack sample_error "database connection failed" None
                  sample_world)).
Proof.
  split; [reflexivity|].
  exact (proj1 (callback_panic_is_contained sample_config_panicking
                  panicking_callback (PString "sentry unreachable")
                  sample_stack sample_error "database connection failed" None
                  sample_world eq_refl eq_refl)).
Defined.

Example callback_panic_trace :
  trace (snd (Handler_WrapWithDetails (New sample_config_panicking) sample_stack
                (Some sample_error) "database connection failed" None
                sample_world))
  = [EvIDGenerator "ERR-20251023-a3f9b2";
     EvLoggerError (CustomLogger "test") "ERR-20251023-a3f9b2"
       (Some sample_error) "database connection failed" 2%positive "";
     EvOnError
       {| ID := "ERR-20251023-a3f9b2"; Original := Some sample_error;
          Context := "database connection failed"; StackTrace := "";
          Details := None; Timestamp := 1761177600 |};
     EvLoggerInfo (CustomLogger "test")
       "OnError callback panicked: sentry unreachable"].
Proof. vm_compute. reflexivity. Qed.

(** ** Stack capture *)

Lemma string_take_app (n : nat) (a b : string) :
  (String.length a <= n)%nat ->
  string_take n (a +:+ b) = a +:+ string_take (n - String.length a) b.
Proof.
  revert n. induction a as [|c a IH]; intros n Hn; cbn in *.
  - now rewrite Nat.sub_0_r.
  - destruct n as [|n]; [lia|]. cbn. rewrite IH by lia. reflexivity.
Qed.

Lemma string_take_length (n : nat) (s : string) :
  (String.length (string_take n s) <= n)%nat.
Proof.
  revert s. induction n as [|n IH]; intros [|c s]; cbn; try lia.
  specialize (IH s). lia.
Qed.

Lemma has_prefix_app (a b : string) : has_prefix (a +:+ b) a = true.
Proof.
  induction a as [|c a IH]; cbn; [reflexivity|].
  now rewrite Ascii.eqb_refl, IH.
Qed.

Lemma has_prefix_length (s p : string) :
  has_prefix s p = true -> (String.length p <= String.length s)%nat.
Proof.
  revert s. induction p as [|c p IH]; intros [|d s]; cbn; try lia;
    try discriminate.
  intros [_ H]%andb_true_iff. specialize (IH _ H). lia.
Qed.

Lemma contains_prefix (s sub : string) :
  has_prefix s sub = true -> contains s sub = true.
Proof. intros H. destruct s; cbn [contains]; now rewrite H. Qed.

Lemma contains_app (a b c : string) : contains (a +:+ b +:+ c) b = true.
Proof.
  induction a as [|x a IH].
  - cbn [String.append]. apply contains_prefix, has_prefix_app.
  - cbn [String.append contains]. rewrite IH. apply orb_true_r.
Qed.

Lemma contains_length (s sub : string) :
  contains s sub = true -> (String.length sub <= String.length s)%nat.
Proof.
  induction s as [|c s IH]; cbn [contains].
  - rewrite orb_false_r. apply has_prefix_length.
  - intros [H|H]%orb_true_iff.
    + apply has_prefix_length, H.
    + specialize (IH H). cbn. lia.
Qed.

Lemma render_frames_app (fs gs : list Frame) :
  render_frames (fs ++ gs) = render_frames fs +:+ render_frames gs.
Proof.
  induction fs as [|f fs IH]; cbn [render_frames app]; [reflexivity|].
  now rewrite IH, string_app_assoc.
Qed.

Lemma captured_not_empty (n : nat) (stk : GoStack) :
  string_take (S n) (stack_dump stk) <> ""%string.
Proof. unfold stack_dump, dump_header. cbn. discriminate. Qed.

Lemma captured_starts_with_header (stk : GoStack) :
  has_prefix (string_take 4096 (stack_dump stk)) "goroutine " = true.
Proof. unfold stack_dump, dump_header. cbn. reflexivity. Qed.

(** If the dump up to and including some frame fits the buffer, the
    captured text contains that frame's entry. *)
Lemma captured_contains_frame (n : nat) (id : Z) (above : list Frame)
    (f : Frame) (below : list Frame) :
  (String.length (stack_dump {| goid := id; frames := above ++ [f] |}) <= n)%nat ->
  contains (string_take n (stack_dump {| goid := id; frames := above ++ f :: below |}))
    (render_frame f) = true.
Proof.
  unfold stack_dump. cbn [goid frames]. intros Hfit.
  rewrite render_frames_app in *. cbn [render_frames] in *.
  rewrite string_app_nil_r in Hfit.
  rewrite <- (string_app_assoc (render_frames above)).
  rewrite <- (string_app_assoc (dump_header id)).
  rewrite string_take_app by exact Hfit.
  rewrite string_app_assoc, string_app_assoc.
  rewrite <- (string_app_assoc (dump_header id)).
  apply contains_app.
Qed.

Lemma contains_trans_prefix (s a b : string) :
  contains s (a +:+ b) = true -> contains s a = true.
Proof.
  induction s as [|c s IH]; cbn [contains].
  - rewrite !orb_false_r. destruct a; [reflexivity|discriminate].
  - intros [H|H]%orb_true_iff.
    + apply orb_true_iff. left. clear IH. revert H.
      generalize (String c s). intros t. revert t.
      induction a as [|x a IHa]; intros [|y t] H; try reflexivity;
        try discriminate.
      cbn in *. apply andb_true_iff in H as [-> H]. cbn. now apply IHa.
    + rewrite (IH H). apply orb_true_r.
Qed.

(** C9, as the code has it.  [Wrap] on a handler made by [New], called
    from [invoker]: without [IncludeStackTrace] the envelope's stack
    trace is the empty string; with it, the stack trace is the start of
    the goroutine's dump, at most 4096 bytes of it, which is never empty
    and runs from the package's own three frames outwards ([skip] plays
    no part); it contains the invoker's frame whenever the dump up to and
    including that frame fits in those 4096 bytes. *)
Theorem stack_trace_toggle (cfg : Config) (id : Z) (invoker : Frame)
    (rest : list Frame) (err : error) (context : string) (w : World) :
  let stk := {| goid := id; frames := invoker :: rest |} in
  let captured :=
    string_take 4096
      (stack_dump {| goid := id; frames := frames_of_Wrap ++ invoker :: rest |}) in
  exists wrapped : ErrorWithID,
    fst (Handler_Wrap (New cfg) stk (Some err) context w)
    = Returned (Some wrapped)
    /\ StackTrace wrapped
       = (if IncludeStackTrace cfg then captured else EmptyString)
    /\ captured <> EmptyString
    /\ (String.length captured <= 4096)%nat
    /\ has_prefix captured "goroutine " = true
    /\ ((String.length
           (stack_dump {| goid := id; frames := frames_of_Wrap ++ [invoker] |})
         <= 4096)%nat ->
        contains captured (render_frame invoker) = true
        /\ contains captured (fr_func invoker) = true).
Proof.
  intros stk captured. eexists. split.
  { unfold Handler_Wrap. apply WrapWithDetails_returns, New_has_generator. }
  destruct (New_keeps_settings cfg) as (_ & _ & Hst & _).
  split; [cbn [StackTrace built_envelope]; rewrite Hst; reflexivity|].
  split; [apply captured_not_empty|].
  split; [apply string_take_length|].
  split; [apply captured_starts_with_header|].
  intros Hfit.
  assert (Hc : contains captured (render_frame invoker) = true)
    by (apply captured_contains_frame, Hfit).
  split; [exact Hc|].
  unfold render_frame in Hc. exact (contains_trans_prefix _ _ _ Hc).
Qed.

Lemma stack_trace_toggle_witness :
  (String.length
     (stack_dump {| goid := 1;
                    frames := frames_of_Wrap
                                ++ [{| fr_func := "main.doSomething";
                                       fr_pos := "main.go:43" |}] |})
   <= 4096)%nat
  /\ contains
       (string_take 4096
          (stack_dump {| goid := 1;
                         frames := frames_of_Wrap ++ frames sample_stack |}))
       "main.doSomething" = true.
Proof.
  assert (Hfit : (String.length
                    (stack_dump
                       {| goid := 1;
                          frames := frames_of_Wrap
                                      ++ [{| fr_func := "main.doSomething";
                                             fr_pos := "main.go:43" |}] |})
                  <= 4096)%nat) by (vm_compute; lia).
  split; [exact Hfit|].
  destruct (stack_trace_toggle sample_config_stack 1
              {| fr_func := "main.doSomething"; fr_pos := "main.go:43" |}
              [{| fr_func := "main.main"; fr_pos := "main.go:14" |}]
              sample_error "database connection failed" sample_world)
    as (wrapped & _ & _ & _ & _ & _ & Hin).
  exact (proj2 (Hin Hfit)).
Defined.

(** C9 as stated fails when the frames in front of the invoker's fill the
    buffer: with a caller whose name alone is longer than 4096 bytes, the
    wrap returns an envelope whose stack trace is not empty and does not
    contain the caller's name. *)
Lemma stack_trace_can_miss_invoker :
  exists wrapped : ErrorWithID,
    fst (Handler_Wrap (New sample_config_stack)
           {| goid := 1; frames := [giant_invoker] |}
           (Some sample_error) "database connection failed" sample_world)
    = Returned (Some wrapped)
    /\ IncludeStackTrace (config (New sample_config_stack)) = true
    /\ contains (StackTrace wrapped) (fr_func giant_invoker) = false.
Proof.
  eexists. split; [|split].
  - unfold Handler_Wrap. apply WrapWithDetails_returns, New_has_generator.
  - reflexivity.
  - destruct (contains _ _) eqn:Hc; [|reflexivity].
    apply contains_length in Hc. exfalso. revert Hc.
    cbn [StackTrace built_envelope]. 
    change (IncludeStackTrace (config (New sample_config_stack))) with true.
    cbv iota. unfold captureStackTrace, runtime_Stack.
    pose proof (string_take_length 4096
                  (stack_dump
                     (push frame_captureStackTrace
                        (push frame_Handler_WrapWithDetails
                           (push frame_Handler_Wrap
                              {| goid := 1; frames := [giant_invoker] |})))))
      as Hlen.
    assert (Hname : (4096 < String.length (fr_func giant_invoker))%nat)
      by (apply Nat.ltb_lt; vm_compute; reflexivity).
    intros Hc. apply (Nat.lt_irrefl 4096).
    eapply Nat.lt_le_trans; [exact Hname|].
    eapply Nat.le_trans; [exact Hc|exact Hlen].
Defined.

(** ** Identifiers (generator.go) *)

Lemma digit_char_is_digit (d : Z) :
  0 <= d < 10 -> is_digit (digit_char d) = true.
Proof.
  intros Hd.
  assert (d = 0 \/ d = 1 \/ d = 2 \/ d = 3 \/ d = 4 \/ d = 5 \/ d = 6
          \/ d = 7 \/ d = 8 \/ d = 9) as Hcases by lia.
  repeat (destruct Hcases as [-> | Hcases]; [reflexivity|]).
  subst d. reflexivity.
Qed.

Lemma is_digit_is_lower_hex (c : ascii) :
  is_digit c = true -> is_lower_hex c = true.
Proof. unfold is_lower_hex. now intros ->. Qed.

Lemma all_chars_app (p : ascii -> bool) (a b : string) :
  all_chars p (a +:+ b) = all_chars p a && all_chars p b.
Proof.
  induction a as [|c a IH]; cbn; [reflexivity|].
  now rewrite IH, andb_assoc.
Qed.

Lemma all_chars_weaken (p q : ascii -> bool) (s : string) :
  (forall c, p c = true -> q c = true) ->
  all_chars p s = true -> all_chars q s = true.
Proof.
  intros Hpq. induction s as [|c s IH]; cbn; [reflexivity|].
  intros [Hc Hs]%andb_true_iff. now rewrite (Hpq _ Hc), IH.
Qed.

Lemma all_chars_repeat (p : ascii -> bool) (c : ascii) (n : nat) :
  p c = true -> all_chars p (repeat_char c n) = true.
Proof. intros Hc. induction n as [|n IH]; cbn; [reflexivity|]. now rewrite Hc. Qed.

Lemma repeat_char_length (c : ascii) (n : nat) :
  String.length (repeat_char c n) = n.
Proof. induction n as [|n IH]; cbn; [reflexivity|]. now rewrite IH. Qed.

(** The digit loop on a value below [10^k]: at most [k] digits are put
    in front of the accumulator, at least one, and all of them are
    decimal digits. *)
Lemma utoa_loop_spec (rounds : nat) :
  forall (k : nat) (u : Z) (acc : string),
    (1 <= k <= rounds)%nat -> 0 <= u < 10 ^ Z.of_nat k ->
    all_chars is_digit acc = true ->
    all_chars is_digit (utoa_loop rounds u acc) = true
    /\ (String.length acc < String.length (utoa_loop rounds u acc)
        <= k + String.length acc)%nat.
Proof.
  induction rounds as [|rounds IH]; intros k u acc Hk Hu Hacc; [lia|].
  cbn [utoa_loop].
  assert (Hd : is_digit (digit_char (u mod 10)) = true)
    by (apply digit_char_is_digit, Z.mod_pos_bound; lia).
  destruct (u <? 10) eqn:Hlt.
  - cbn. rewrite Hd, Hacc. split; [reflexivity|lia].
  - apply Z.ltb_ge in Hlt.
    destruct k as [|[|k]]; [lia| cbn in Hu; lia |].
    destruct (IH (S k) (u / 10) (String (digit_char (u mod 10)) acc))
      as [Hall Hlen].
    + lia.
    + split; [apply Z.div_pos; lia|].
      apply Z.div_lt_upper_bound; [lia|].
      replace (Z.of_nat (S (S k))) with (Z.succ (Z.of_nat (S k))) in Hu by lia.
      rewrite Z.pow_succ_r in Hu by lia. lia.
    + cbn. now rewrite Hd, Hacc.
    + split; [exact Hall|]. cbn [String.length] in Hlen. lia.
Qed.

Lemma utoa_spec (k : nat) (u : Z) :
  (1 <= k <= 20)%nat -> 0 <= u < 10 ^ Z.of_nat k ->
  all_chars is_digit (utoa u) = true
  /\ (1 <= String.length (utoa u) <= k)%nat.
Proof.
  intros Hk Hu. unfold utoa.
  destruct (utoa_loop_spec 20 k u EmptyString Hk Hu eq_refl) as [Hall Hlen].
  cbn [String.length] in Hlen. split; [exact Hall|lia].
Qed.

(** A zero-padded field of width [k] holding a value below [10^k] is
    exactly [k] decimal digits. *)
Lemma time_appendInt_digits (k : nat) (x : Z) :
  (1 <= k <= 20)%nat -> 0 <= x < 10 ^ Z.of_nat k ->
  all_chars is_digit (time_appendInt x k) = true
  /\ String.length (time_appendInt x k) = k.
Proof.
  intros Hk Hx. unfold time_appendInt.
  assert ((x <? 0) = false) as -> by (apply Z.ltb_ge; lia).
  rewrite Z.abs_eq by lia.
  destruct (utoa_spec k x Hk Hx) as [Hall Hlen].
  cbn [String.append].
  rewrite all_chars_app, string_app_length, repeat_char_length, Hall.
  rewrite all_chars_repeat by reflexivity. split; [reflexivity|lia].
Qed.

Lemma fmt_integer_zero_padded (k : nat) (n : Z) :
  (1 <= k <= 20)%nat -> 0 <= n < 10 ^ Z.of_nat k ->
  all_chars is_digit (fmt_integer true k n) = true
  /\ String.length (fmt_integer true k n) = k.
Proof.
  intros Hk Hn. unfold fmt_integer.
  assert ((n <? 0) = false) as -> by (apply Z.ltb_ge; lia).
  rewrite Z.abs_eq by lia.
  destruct (utoa_spec k n Hk Hn) as [Hall Hlen].
  cbn [String.append String.length Nat.add].
  rewrite all_chars_app, string_app_length, repeat_char_length, Hall.
  rewrite all_chars_repeat by reflexivity. split; [reflexivity|lia].
Qed.

Lemma hex_pair_is_lower_hex (b : Byte.byte) :
  is_lower_hex (hex_digit (N.shiftr (Byte.to_N b) 4)) = true
  /\ is_lower_hex (hex_digit (N.land (Byte.to_N b) 15)) = true.
Proof. destruct b; split; vm_compute; reflexivity. Qed.

Lemma hex_EncodeToString_spec (src : list Byte.byte) :
  all_chars is_lower_hex (hex_EncodeToString src) = true
  /\ String.length (hex_EncodeToString src) = (2 * length src)%nat.
Proof.
  induction src as [|b src [IHall IHlen]]; [split; reflexivity|].
  destruct (hex_pair_is_lower_hex b) as [Hhi Hlo].
  cbn [hex_EncodeToString all_chars String.length length].
  rewrite Hhi, Hlo, IHall, IHlen. split; [reflexivity|lia].
Qed.

Lemma date_is_eight_digits (t : Time) :
  clock_in_range t = true ->
  all_chars is_digit (Time_Format_20060102 t) = true
  /\ String.length (Time_Format_20060102 t) = 8%nat.
Proof.
  unfold clock_in_range. rewrite !andb_true_iff, !Z.leb_le.
  intros ((((((Hy0 & Hy1) & Hm0) & Hm1) & Hd0) & Hd1) & _).
  unfold Time_Format_20060102.
  destruct (time_appendInt_digits 4 (t_year t)) as [Hya Hyl]; [lia|cbn; lia|].
  destruct (time_appendInt_digits 2 (t_month t)) as [Hma Hml]; [lia|cbn; lia|].
  destruct (time_appendInt_digits 2 (t_day t)) as [Hda Hdl]; [lia|cbn; lia|].
  rewrite !all_chars_app, !string_app_length, Hya, Hma, Hda, Hyl, Hml, Hdl.
  split; reflexivity.
Qed.

Lemma matches_classes_app (c1 c2 : list (ascii -> bool)) (s1 s2 : string) :
  matches_classes c1 s1 = true -> matches_classes c2 s2 = true ->
  matches_classes (c1 ++ c2) (s1 +:+ s2) = true.
Proof.
  revert s1. induction c1 as [|p c1 IH]; intros [|c s1]; cbn;
    try discriminate; [auto|].
  intros [Hp H1]%andb_true_iff H2. rewrite Hp. cbn. now apply IH.
Qed.

Lemma matches_classes_repeat (p : ascii -> bool) (n : nat) (s : string) :
  String.length s = n -> all_chars p s = true ->
  matches_classes (repeat p n) s = true.
Proof.
  revert s. induction n as [|n IH]; intros [|c s]; cbn; try discriminate;
    [reflexivity|].
  intros [= Hlen] [Hc Hs]%andb_true_iff. rewrite Hc. cbn. now apply IH.
Qed.

(** [ERR-], eight digits, a dash, six lower-case hex characters. *)
Lemma matches_id_format_intro (date random : string) :
  String.length date = 8%nat -> all_chars is_digit date = true ->
  String.length random = 6%nat -> all_chars is_lower_hex random = true ->
  matches_id_format ("ERR-" +:+ date +:+ "-" +:+ random) = true.
Proof.
  intros Hdl Hda Hrl Hra. unfold matches_id_format, id_format.
  apply (matches_classes_app _ _ "ERR-"); [reflexivity|].
  apply matches_classes_app; [now apply matches_classes_repeat|].
  apply (matches_classes_app _ _ "-"); [reflexivity|].
  now apply matches_classes_repeat.
Qed.

(** The two results of the default generator, with [Sprintf] carried
    out. *)
Lemma GenerateErrorID_value (e : Env) :
  fst (GenerateErrorID e)
  = "ERR-" +:+ Time_Format_20060102 (clock e (clock_pos e)) +:+ "-"
      +:+ match entropy e (entropy_pos e) with
          | Some (b0, b1, b2) => hex_EncodeToString [b0; b1; b2]
          | None =>
              fmt_integer true 6
                (go_rem (t_unixnano (clock e (S (clock_pos e)))) 1000000)
          end.
Proof.
  unfold GenerateErrorID, time_Now, rand_Read3. cbn [clock clock_pos entropy entropy_pos].
  destruct (entropy e (entropy_pos e)) as [[[b0 b1] b2]|];
    cbn [fst]; unfold Sprintf; cbn -[hex_EncodeToString fmt_integer go_rem];
    rewrite ?pad_left_0, !string_app_nil_r; reflexivity.
Qed.

Lemma hex_is_not_dash (c : ascii) :
  is_lower_hex c = true -> negb (Ascii.eqb c "-") = true.
Proof.
  destruct c as [[] [] [] [] [] [] [] []]; vm_compute; congruence.
Qed.

Lemma split_on_plain (s : string) :
  all_chars (fun c => negb (Ascii.eqb c "-")) s = true ->
  split_on "-" s = [s].
Proof.
  induction s as [|c s IH]; cbn; [reflexivity|].
  intros [Hc Hs]%andb_true_iff. apply negb_true_iff in Hc.
  now rewrite Hc, (IH Hs).
Qed.

Lemma split_on_segment (a rest : string) :
  all_chars (fun c => negb (Ascii.eqb c "-")) a = true ->
  split_on "-" (a +:+ String "-" rest) = a :: split_on "-" rest.
Proof.
  induction a as [|c a IH]; cbn; [reflexivity|].
  intros [Hc Ha]%andb_true_iff. apply negb_true_iff in Hc.
  now rewrite Hc, (IH Ha).
Qed.

(** C3. A handler made by [New] wraps a failure: the call returns an
    envelope whose identifier is what the configured generator gave,
    unchanged -- the custom generator's output if one was configured, the
    default generator's otherwise.  The default generator is a total
    function, and while the wall clock reads a date between 1970 and 9999
    its result matches [ERR-\d{8}-[0-9a-f]{6}] and splits at the dashes
    into [ERR], the eight-digit date and six characters: the hex encoding
    of the three random bytes, or, when the randomness source reports an
    error, the six decimal digits of [UnixNano() % 1000000]. *)
Theorem identifier_format (cfg : Config) (stk : GoStack) (err : error)
    (context : string) (details : option loc) (w : World) :
  (exists wrapped : ErrorWithID,
      fst (Handler_WrapWithDetails (New cfg) stk (Some err) context details w)
      = Returned (Some wrapped)
      /\ ID wrapped = fst (default GenerateErrorID (IDGenerator cfg) (env w)))
  /\ ((forall n : nat, clock_in_range (clock (env w) n) = true) ->
      let id := fst (GenerateErrorID (env w)) in
      let date := Time_Format_20060102 (clock (env w) (clock_pos (env w))) in
      matches_id_format id = true
      /\ exists random : string,
          id = "ERR-" +:+ date +:+ "-" +:+ random
          /\ split_on "-" id = ["ERR"%string; date; random]
          /\ String.length date = 8%nat
          /\ all_chars is_digit date = true
          /\ String.length random = 6%nat
          /\ match entropy (env w) (entropy_pos (env w)) with
             | Some (b0, b1, b2) => random = hex_EncodeToString [b0; b1; b2]
             | None =>
                 all_chars is_digit random = true
                 /\ random
                    = fmt_integer true 6
                        (t_unixnano (clock (env w) (S (clock_pos (env w))))
                           mod 1000000)
             end).
Proof.
  split.
  { eexists. split; [apply WrapWithDetails_returns, New_has_generator|].
    reflexivity. }
  intros Hclock id date.
  destruct (date_is_eight_digits _ (Hclock (clock_pos (env w)))) as [Hda Hdl].
  fold date in Hda, Hdl.
  set (random :=
         match entropy (env w) (entropy_pos (env w)) with
         | Some (b0, b1, b2) => hex_EncodeToString [b0; b1; b2]
         | None =>
             fmt_integer true 6
               (go_rem (t_unixnano (clock (env w) (S (clock_pos (env w)))))
                  1000000)
         end).
  assert (Hid : id = "ERR-" +:+ date +:+ "-" +:+ random)
    by apply GenerateErrorID_value.
  assert (Hnano : 0 <= t_unixnano (clock (env w) (S (clock_pos (env w))))).
  { specialize (Hclock (S (clock_pos (env w)))). unfold clock_in_range in Hclock.
    rewrite !andb_true_iff, !Z.leb_le in Hclock. tauto. }
  assert (Hrem : go_rem (t_unixnano (clock (env w) (S (clock_pos (env w)))))
                   1000000
                 = t_unixnano (clock (env w) (S (clock_pos (env w))))
                     mod 1000000)
    by (unfold go_rem; apply Z.rem_mod_nonneg; lia).
  assert (Hrandom : String.length random = 6%nat
                    /\ all_chars is_lower_hex random = true).
  { subst random. destruct (entropy (env w) (entropy_pos (env w)))
      as [[[b0 b1] b2]|].
    - destruct (hex_EncodeToString_spec [b0; b1; b2]) as [Ha Hl]. now split.
    - destruct (fmt_integer_zero_padded 6
                  (go_rem (t_unixnano (clock (env w) (S (clock_pos (env w)))))
                     1000000)) as [Ha Hl]; [lia| |].
      + rewrite Hrem. apply Z.mod_pos_bound. lia.
      + split; [exact Hl|].
        exact (all_chars_weaken _ _ _ is_digit_is_lower_hex Ha). }
  destruct Hrandom as [Hrl Hra].
  split; [rewrite Hid; now apply matches_id_format_intro|].
  exists random. split; [exact Hid|].
  split.
  { rewrite Hid.
    change ("ERR-" +:+ date +:+ "-" +:+ random)
      with ("ERR" +:+ String "-" (date +:+ String "-" random)).
    rewrite (split_on_segment "ERR") by reflexivity.
    rewrite split_on_segment
      by (apply (all_chars_weaken is_lower_hex); [apply hex_is_not_dash|];
          exact (all_chars_weaken _ _ _ is_digit_is_lower_hex Hda)).
    rewrite split_on_plain
      by (apply (all_chars_weaken is_lower_hex); [apply hex_is_not_dash|];
          exact Hra).
    reflexivity. }
  split; [exact Hdl|]. split; [exact Hda|]. split; [exact Hrl|].
  subst random. destruct (entropy (env w) (entropy_pos (env w)))
    as [[[b0 b1] b2]|]; [reflexivity|].
  rewrite Hrem. split; [|reflexivity].
  apply (fmt_integer_zero_padded 6); [lia|]. apply Z.mod_pos_bound. lia.
Qed.

Lemma identifier_format_witness :
  (forall n : nat, clock_in_range (clock (env sample_world) n) = true)
  /\ matches_id_format (fst (GenerateErrorID (env sample_world))) = true.
Proof.
  assert (Hclock : forall n : nat,
             clock_in_range (clock (env sample_world) n) = true)
    by (intros n; reflexivity).
  split; [exact Hclock|].
  exact (proj1 (proj2 (identifier_format DefaultConfig sample_stack sample_error
                         "database connection failed" None sample_world)
                  Hclock)).
Defined.

Example default_identifier :
  fst (GenerateErrorID sample_env) = "ERR-20251023-a3f9b2"%string.
Proof. vm_compute. reflexivity. Qed.

Example fallback_identifier :
  fst (GenerateErrorID sample_env_no_entropy) = "ERR-20251023-456789"%string.
Proof. vm_compute. reflexivity. Qed.

Example custom_identifier :
  fst (Handler_Wrap (New sample_config_custom) sample_stack (Some sample_error)
         "context" sample_world)
  = Returned
      (Some {| ID := "CUSTOM-ID-123"; Original := Some sample_error;
               Context := "context"; StackTrace := ""; Details := None;
               Timestamp := 1761177600 |}).
Proof. vm_compute. reflexivity. Qed.

(** ** The recovery boundary (middleware.go) *)

Lemma describe_panic_context (id : string) (err : option error)
    (st : string) (d : option loc) (ts : Z) :
  ErrorWithID_Error
    {| ID := id; Original := err; Context := panic_context;
       StackTrace := st; Details := d; Timestamp := ts |}
  = "[" +:+ id +:+ "] panic recovered in HTTP handler: " +:+ render_error err.
Proof.
  unfold ErrorWithID_Error, Sprintf. cbn.
  rewrite !pad_left_0, !string_app_nil_r. reflexivity.
Qed.

(** A handler that returns is left alone: nothing is written, nothing is
    wrapped. *)
Lemma recovery_passes_through (json_string : string -> string) (h : Handler)
    (next : http_Handler) (stk : GoStack) (rw rw1 : ResponseWriter)
    (r : Request) (w : World) :
  next rw r = (Returned tt, rw1) ->
  Handler_RecoveryMiddleware json_string h next stk rw r w = (Returned tt, rw1, w).
Proof. intros Hnext. unfold Handler_RecoveryMiddleware. now rewrite Hnext. Qed.

(** C5, as the code has it.  The wrapped handler panics with [rec],
    leaving the response as [rw1].  The middleware (on a handler made by
    [New]) recovers the panic and returns; it wraps the failure with the
    context [panic recovered in HTTP handler], sets [Content-Type] to
    [application/json], calls [WriteHeader(500)] and writes one JSON line
    with [error_id], [message] and [timestamp] of the envelope.  The
    message is the fixed generic text unless the environment is
    [development], where it is the envelope's description, original
    failure text included.  The status that goes out is 500, with that
    content type, when the handler had sent no status line before it
    panicked; otherwise the handler's status line and headers stand and
    the JSON line follows what the handler had written. *)
Theorem recovery_writes_error_response (json_string : string -> string)
    (cfg : Config) (next : http_Handler) (stk : GoStack)
    (rw rw1 : ResponseWriter) (r : Request) (w : World) (rec : panic_value) :
  next rw r = (Panicked rec, rw1) ->
  let h := New cfg in
  let wrapped :=
    built_envelope h (default GenerateErrorID (IDGenerator cfg))
      (push frame_Recovery_deferred (push frame_runtime_panic stk))
      (recovered_error rec) panic_context (Some (fresh (dom (heap w)))) w in
  let response :=
    {| resp_ErrorID := ID wrapped;
       resp_Message := response_message (Environment cfg) wrapped;
       resp_Timestamp := Timestamp wrapped |} in
  exists (rw2 : ResponseWriter) (w2 : World),
    Handler_RecoveryMiddleware json_string h next stk rw r w
    = (Returned tt, rw2, w2)
    /\ rw_header rw2 = <["Content-Type" := "application/json"]> (rw_header rw1)
    /\ rw_wroteHeader rw2 = true
    /\ rw_status rw2
       = (if rw_wroteHeader rw1 then rw_status rw1 else StatusInternalServerError)
    /\ rw_sent_header rw2
       = (if rw_wroteHeader rw1 then rw_sent_header rw1
          else <["Content-Type" := "application/json"]> (rw_header rw1))
    /\ rw_body rw2
       = rw_body rw1 +:+ (json_Marshal json_string response +:+ LF)
    /\ response_message "development" wrapped
       = "[" +:+ ID wrapped +:+ "] panic recovered in HTTP handler: "
           +:+ error_Error (recovered_error rec)
    /\ (forall environment : string,
          environment <> "development"%string ->
          response_message environment wrapped = generic_message).
Proof.
  intros Hnext h wrapped response. subst h.
  pose proof (New_has_generator cfg) as Hgen.
  destruct (New_keeps_settings cfg) as (_ & _ & _ & Henv).
  unfold Handler_RecoveryMiddleware. rewrite Hnext. unfold new_map.
  match goal with
  | |- context [Handler_WrapWithDetails ?a ?b ?c ?d ?e ?f] =>
      pose proof (WrapWithDetails_returns a _ b (recovered_error rec) d e f Hgen)
        as Hret;
      change c with (Some (recovered_error rec)) in *;
      destruct (Handler_WrapWithDetails a b (Some (recovered_error rec)) d e f)
        as [res w2]
  end.
  cbn [fst] in Hret. subst res.
  unfold Handler_writeErrorResponse, json_Encode. rewrite Henv.
  eexists _, w2. split; [reflexivity|].
  unfold Write, WriteHeader, Header_Set, StatusInternalServerError.
  cbn [rw_header rw_wroteHeader rw_status rw_sent_header rw_body].
  destruct (rw_wroteHeader rw1);
    cbn [rw_header rw_wroteHeader rw_status rw_sent_header rw_body];
    (repeat split;
     [apply describe_panic_context
     |intros environment Hne; unfold response_message;
      destruct (String.eqb_spec environment "development"); congruence]).
Qed.

Lemma recovery_writes_error_response_witness :
  handler_panics fresh_ResponseWriter sample_request
  = (Panicked (PString "index out of range"), fresh_ResponseWriter)
  /\ exists (rw2 : ResponseWriter) (w2 : World),
      Handler_RecoveryMiddleware plain_json_string (New DefaultConfig)
        handler_panics sample_stack fresh_ResponseWriter sample_request
        sample_world
      = (Returned tt, rw2, w2)
      /\ rw_status rw2 = 500.
Proof.
  split; [reflexivity|].
  destruct (recovery_writes_error_response plain_json_string DefaultConfig
              handler_panics sample_stack fresh_ResponseWriter
              fresh_ResponseWriter sample_request sample_world
              (PString "index out of range") eq_refl)
    as (rw2 & w2 & Hrun & _ & _ & Hstatus & _).
  exists rw2, w2. split; [exact Hrun|exact Hstatus].
Defined.

(** C5 as stated fails when the handler had already sent a status line:
    after a handler that sends 200 and part of a body and then panics,
    the response still has status 200 and no JSON content type, and the
    JSON line comes after the partial body. *)
Lemma recovery_cannot_replace_sent_status :
  exists (rw2 : ResponseWriter) (w2 : World),
    Handler_RecoveryMiddleware plain_json_string (New DefaultConfig)
      handler_writes_then_panics sample_stack fresh_ResponseWriter
      sample_request sample_world
    = (Returned tt, rw2, w2)
    /\ rw_status rw2 = 200
    /\ rw_status rw2 <> StatusInternalServerError
    /\ rw_sent_header rw2 !! "Content-Type" = None
    /\ has_prefix (rw_body rw2) "partial{" = true.
Proof.
  eexists _, _. split; [vm_compute; reflexivity|].
  repeat split; vm_compute; congruence.
Qed.

Example recovery_body_production :
  rw_body (snd (fst (Handler_RecoveryMiddleware plain_json_string
                       (New DefaultConfig) handler_panics sample_stack
                       fresh_ResponseWriter sample_request sample_world)))
  = "{" +:+ DQ +:+ "error_id" +:+ DQ +:+ ":" +:+ DQ +:+ "ERR-20251023-a3f9b2"
      +:+ DQ +:+ "," +:+ DQ +:+ "message" +:+ DQ +:+ ":" +:+ DQ
      +:+ "An internal error occurred. Please contact support with this error ID."
      +:+ DQ +:+ "," +:+ DQ +:+ "timestamp" +:+ DQ +:+ ":1761177600}" +:+ LF.
Proof. vm_compute. reflexivity. Qed.

Example recovery_message_development :
  response_message "development"
    (built_envelope (New sample_config_development) GenerateErrorID
       sample_stack (recovered_error (PString "index out of range"))
       panic_context None sample_world)
  = "[ERR-20251023-a3f9b2] panic recovered in HTTP handler: panic: index out of range"%string.
Proof. vm_compute. reflexivity. Qed.

(** ** The earlier revision of logError *)

(** The earlier text writes the timestamp, and the stack trace when there
    is one, into the caller's own map and hands that map to the logger:
    the isolation proved above belongs to handler.go, not to it. *)
Lemma Earlier_logError_changes_callers_map (h : Handler) (lg : Logger)
    (err : ErrorWithID) (user : loc) (w : World) :
  Logger_ (config h) = Some lg ->
  Details err = Some user ->
  heap (Earlier.Handler_logError h err w) !! user
  = Some (let stamped :=
            <["timestamp" := AInt64 (Timestamp err)]> (heap w !!! user) in
          if negb (String.eqb (StackTrace err) "")
          then <["stack_trace" := AString (StackTrace err)]> stamped
          else stamped).
Proof.
  intros Hlg Huser. unfold Earlier.Handler_logError. rewrite Hlg, Huser.
  destruct (negb (String.eqb (StackTrace err) "")); cbn.
  - rewrite lookup_insert_eq, lookup_total_insert_eq. reflexivity.
  - rewrite lookup_insert_eq. reflexivity.
Qed.

(** * Further properties *)

(** ** New and handler values *)

(** X1. [New] never leaves the generator or the logger nil: a generator
    or logger the caller gave is kept, a missing one becomes
    [GenerateErrorID] or the default logger on standard output; the other
    four settings pass through; and making a handler again from a
    handler's configuration changes nothing. *)
Theorem New_fills_defaults_once (cfg : Config) :
  IDGenerator (Handler_Config (New cfg))
  = Some (default GenerateErrorID (IDGenerator cfg))
  /\ Logger_ (Handler_Config (New cfg))
     = Some (default (NewDefaultLogger "os.Stdout") (Logger_ cfg))
  /\ OnError (Handler_Config (New cfg)) = OnError cfg
  /\ AsyncCallback (Handler_Config (New cfg)) = AsyncCallback cfg
  /\ IncludeStackTrace (Handler_Config (New cfg)) = IncludeStackTrace cfg
  /\ Environment (Handler_Config (New cfg)) = Environment cfg
  /\ New (Handler_Config (New cfg)) = New cfg.
Proof.
  destruct cfg as [on async [lg|] stack environment [g|]]; repeat split.
Qed.

(** X2. A handler value that was not made by [New] and has no generator
    panics on the first failure it is asked to wrap, before anything is
    logged or called; behind such a handler the recovery middleware does
    not protect the request: the second panic leaves the deferred
    function and nothing is written to the response. *)
Theorem handler_without_generator_panics (json_string : string -> string)
    (h : Handler) (stk : GoStack) (err : error) (context : string)
    (details : option loc) (w : World) (next : http_Handler)
    (rw rw1 : ResponseWriter) (r : Request) (rec : panic_value) :
  IDGenerator (config h) = None ->
  next rw r = (Panicked rec, rw1) ->
  Handler_WrapWithDetails h stk (Some err) context details w
  = (Panicked nil_dereference, w)
  /\ Handler_Wrap h stk (Some err) context w = (Panicked nil_dereference, w)
  /\ fst (fst (Handler_RecoveryMiddleware json_string h next stk rw r w))
     = Panicked nil_dereference
  /\ snd (fst (Handler_RecoveryMiddleware json_string h next stk rw r w)) = rw1
  /\ trace (snd (Handler_RecoveryMiddleware json_string h next stk rw r w))
     = trace w.
Proof.
  intros Hgen Hnext.
  unfold Handler_RecoveryMiddleware, Handler_Wrap, Handler_WrapWithDetails.
  rewrite Hgen, Hnext. repeat split.
Qed.

Lemma handler_without_generator_panics_witness :
  IDGenerator (config zero_Handler) = None
  /\ handler_panics fresh_ResponseWriter sample_request
     = (Panicked (PString "index out of range"), fresh_ResponseWriter)
  /\ Handler_Wrap zero_Handler sample_stack (Some sample_error) "context"
       sample_world
     = (Panicked nil_dereference, sample_world).
Proof.
  split; [reflexivity|]. split; [reflexivity|].
  exact (proj1 (proj2
           (handler_without_generator_panics plain_json_string zero_Handler
              sample_stack sample_error "context" None sample_world
              handler_panics fresh_ResponseWriter fresh_ResponseWriter
              sample_request (PString "index out of range") eq_refl eq_refl))).
Defined.

(** ** Logging and the callback, case by case *)

Lemma count_calls_app (p : Event -> bool) (t1 t2 : list Event) :
  count_calls p (t1 ++ t2) = (count_calls p t1 + count_calls p t2)%nat.
Proof.
  induction t1 as [|ev t1 IH]; cbn [count_calls app]; [reflexivity|].
  rewrite IH. lia.
Qed.

(** X3. On a handler without a logger a wrap logs nothing at all: no
    map is allocated, the store is unchanged, and the only calls are the
    generator and, in synchronous mode, the callback; a callback that
    panics there is swallowed without any record. *)
Theorem wrap_without_logger (h : Handler) (generator : Env -> string * Env)
    (stk : GoStack) (err : error) (context : string) (details : option loc)
    (w : World) :
  IDGenerator (config h) = Some generator ->
  Logger_ (config h) = None ->
  let wrapped := built_envelope h generator stk err context details w in
  let w' := snd (Handler_WrapWithDetails h stk (Some err) context details w) in
  fst (Handler_WrapWithDetails h stk (Some err) context details w)
  = Returned (Some wrapped)
  /\ heap w' = heap w
  /\ trace w'
     = trace w
         ++ EvIDGenerator (ID wrapped)
            :: match OnError (config h) with
               | Some _ =>
                   if AsyncCallback (config h) then [] else [EvOnError wrapped]
               | None => []
               end.
Proof.
  intros Hgen Hlg wrapped w'. subst wrapped w'.
  split; [apply WrapWithDetails_returns, Hgen|].
  rewrite (WrapWithDetails_world _ _ _ _ _ _ _ Hgen).
  rewrite callback_step_heap, callback_step_trace.
  rewrite (logError_without_logger _ _ _ Hlg).
  split; [reflexivity|].
  unfold world_at_log, callback_events. cbn [trace with_env emit].
  rewrite Hlg, <- app_assoc. cbn [app]. do 2 f_equal.
  destruct (OnError (config h)) as [cb|]; [|reflexivity].
  destruct (AsyncCallback (config h)); [reflexivity|].
  destruct (cb _); reflexivity.
Qed.

Lemma wrap_without_logger_witness :
  IDGenerator (config bare_Handler) = Some GenerateErrorID
  /\ Logger_ (config bare_Handler) = None
  /\ heap (snd (Handler_WrapWithDetails bare_Handler sample_stack
                  (Some sample_error) "context" (Some 1%positive)
                  sample_world))
     = heap sample_world.
Proof.
  split; [reflexivity|]. split; [reflexivity|].
  exact (proj1 (proj2
           (wrap_without_logger bare_Handler GenerateErrorID sample_stack
              sample_error "context" (Some 1%positive) sample_world
              eq_refl eq_refl))).
Defined.







Lemma callback_events_counts (h : Handler) (e : ErrorWithID) :
  count_calls is_IDGenerator (callback_events h e) = 0%nat
  /\ count_calls is_LoggerError (callback_events h e) = 0%nat
  /\ count_calls is_OnError (callback_events h e)
     = match OnError (config h) with
       | Some _ => if AsyncCallback (config h) then 0%nat else 1%nat
       | None => 0%nat
       end
  /\ (count_calls is_LoggerInfo (callback_events h e)
      <= count_calls is_OnError (callback_events h e))%nat.
Proof.
  unfold callback_events.
  destruct (OnError (config h)) as [cb|]; [|cbn; repeat split; lia].
  destruct (AsyncCallback (config h)); [cbn; repeat split; lia|].
  destruct (cb e); [destruct (Logger_ (config h))|]; cbn; repeat split; lia.
Qed.

Lemma wrap_side_effects_aux (cfg : Config) (stk : GoStack) (err : error)
    (context : string) (details : option loc) (w : World) :
  count_calls is_IDGenerator
    (trace (snd (Handler_WrapWithDetails (New cfg) stk (Some err) context
                   details w)))
  = S (count_calls is_IDGenerator (trace w))
  /\ count_calls is_LoggerError
       (trace (snd (Handler_WrapWithDetails (New cfg) stk (Some err) context
                      details w)))
     = S (count_calls is_LoggerError (trace w)).
Proof.
  pose proof (New_has_generator cfg) as Hgen.
  pose proof (New_has_logger cfg) as Hlg.
  rewrite (WrapWithDetails_trace _ _ _ _ _ _ _ _ Hgen Hlg).
  rewrite !count_calls_app.
  cbn [count_calls is_IDGenerator is_LoggerError].
  match goal with
  | |- context [callback_events ?h ?e] =>
      destruct (callback_events_counts h e) as (Hg & He & _)
  end.
  split; lia.
Qed.

(** X6. What one wrap of a failure makes happen, on a handler made by
    [New]: exactly one call of the generator and exactly one
    [Logger.Error]; one call of the callback when one is configured and
    the mode is synchronous, none otherwise; one goroutine started when
    one is configured and the mode is asynchronous, none otherwise;
    [Logger.Info] at most as often as the callback was called. *)
Theorem wrap_side_effects (cfg : Config) (stk : GoStack) (err : error)
    (context : string) (details : option loc) (w : World) :
  let w' :=
    snd (Handler_WrapWithDetails (New cfg) stk (Some err) context details w) in
  let calls (p : Event -> bool) :=
    (count_calls p (trace w') - count_calls p (trace w))%nat in
  count_calls is_IDGenerator (trace w')
  = S (count_calls is_IDGenerator (trace w))
  /\ count_calls is_LoggerError (trace w')
     = S (count_calls is_LoggerError (trace w))
  /\ calls is_OnError
     = match OnError cfg with
       | Some _ => if AsyncCallback cfg then 0%nat else 1%nat
       | None => 0%nat
       end
  /\ (count_calls is_OnError (trace w) <= count_calls is_OnError (trace w'))%nat
  /\ (calls is_LoggerInfo <= calls is_OnError)%nat
  /\ length (goroutines w')
     = (length (goroutines w)
        + match OnError cfg with
          | Some _ => if AsyncCallback cfg then 1 else 0
          | None => 0
          end)%nat.
Proof.
  intros w' calls. subst w' calls. cbv beta.
  pose proof (New_has_generator cfg) as Hgen.
  pose proof (New_has_logger cfg) as Hlg.
  destruct (New_keeps_settings cfg) as (Hon & Hasync & _).
  rewrite (WrapWithDetails_trace _ _ _ _ _ _ _ _ Hgen Hlg).
  rewrite (WrapWithDetails_goroutines _ _ _ _ _ _ _ Hgen).
  rewrite !count_calls_app.
  cbn [count_calls is_IDGenerator is_LoggerError is_OnError is_LoggerInfo].
  match goal with
  | |- context [callback_events ?h ?e] =>
      destruct (callback_events_counts h e) as (Hg & He & Ho & Hi)
  end.
  rewrite Hon, Hasync in Ho.
  rewrite length_app. unfold callback_goroutines. rewrite Hon, Hasync.
  repeat split; try lia.
  destruct (OnError cfg); [destruct (AsyncCallback cfg)|]; reflexivity.
Qed.




(** X8. In synchronous mode the order of a wrap's calls is fixed:
    generator, then [Logger.Error], then the callback, which receives the
    very envelope the wrap returns, carrying the identifier the logger
    was given; an Info line follows only when the callback panicked.  No
    goroutine is started. *)
Theorem sync_callback_follows_logger (cfg : Config)
    (callback : ErrorWithID -> option panic_value) (stk : GoStack)
    (err : error) (context : string) (details : option loc) (w : World) :
  OnError cfg = Some callback ->
  AsyncCallback cfg = false ->
  let lg := default (NewDefaultLogger "os.Stdout") (Logger_ cfg) in
  let w' :=
    snd (Handler_WrapWithDetails (New cfg) stk (Some err) context details w) in
  exists wrapped : ErrorWithID,
    fst (Handler_WrapWithDetails (New cfg) stk (Some err) context details w)
    = Returned (Some wrapped)
    /\ trace w'
       = trace w
           ++ [EvIDGenerator (ID wrapped);
               EvLoggerError lg (ID wrapped) (Original wrapped)
                 (Context wrapped) (fresh (dom (heap w))) (StackTrace wrapped);
               EvOnError wrapped]
           ++ match callback wrapped with
              | Some r =>
                  [EvLoggerInfo lg
                     ("OnError callback panicked: " +:+ fmt_Sprint r)]
              | None => []
              end
    /\ goroutines w' = goroutines w.
Proof.
  intros Hcb Hsync lg w'. subst lg w'.
  pose proof (New_has_generator cfg) as Hgen.
  pose proof (New_has_logger cfg) as Hlg.
  destruct (New_keeps_settings cfg) as (Hon & Hasync & _).
  rewrite Hcb in Hon. rewrite Hsync in Hasync.
  eexists. split; [apply WrapWithDetails_returns, Hgen|].
  split.
  - rewrite (WrapWithDetails_trace _ _ _ _ _ _ _ _ Hgen Hlg).
    unfold callback_events. rewrite Hon, Hasync, Hlg.
    cbn [ID Original Context StackTrace built_envelope app].
    reflexivity.
  - rewrite (WrapWithDetails_goroutines _ _ _ _ _ _ _ Hgen).
    unfold callback_goroutines. rewrite Hon, Hasync. apply app_nil_r.
Qed.

Lemma sync_callback_follows_logger_witness :
  OnError sample_config_sync = Some returning_callback
  /\ AsyncCallback sample_config_sync = false
  /\ goroutines
       (snd (Handler_WrapWithDetails (New sample_config_sync) sample_stack
               (Some sample_error) "context" None sample_world))
     = [].
Proof.
  split; [reflexivity|]. split; [reflexivity|].
  destruct (sync_callback_follows_logger sample_config_sync returning_callback
              sample_stack sample_error "context" None sample_world
              eq_refl eq_refl)
    as (wrapped & _ & _ & Hgo).
  exact Hgo.
Defined.

(** ** Runs of wraps *)

Lemma WrapWithDetails_nil (h : Handler) stk context details w :
  Handler_WrapWithDetails h stk None context details w = (Returned None, w).
Proof. reflexivity. Qed.

(** X9. A run of wraps on a handler made by [New] never panics and
    answers every call: nil for a nil failure and an envelope otherwise.
    Over the whole run the generator and [Logger.Error] are called once
    per failure that is not nil, and not at all for the nil ones. *)
Theorem wraps_compose (cfg : Config) (stk : GoStack)
    (calls : list (option error * string * option loc)) (w : World) :
  exists answers : list (option ErrorWithID),
    fst (WrapWithDetails_each (New cfg) stk calls w) = Returned answers
    /\ Forall2 (fun c a => is_Some (fst (fst c)) <-> is_Some a) calls answers
    /\ count_calls is_IDGenerator
         (trace (snd (WrapWithDetails_each (New cfg) stk calls w)))
       = (count_calls is_IDGenerator (trace w) + wrapped_calls calls)%nat
    /\ count_calls is_LoggerError
         (trace (snd (WrapWithDetails_each (New cfg) stk calls w)))
       = (count_calls is_LoggerError (trace w) + wrapped_calls calls)%nat.
Proof.
  revert w. induction calls as [|[[err context] details] rest IH]; intros w.
  - exists []. cbn. repeat split; [constructor|lia..].
  - cbn [WrapWithDetails_each].
    destruct err as [err|].
    + pose proof (New_has_generator cfg) as Hgen.
      pose proof (WrapWithDetails_returns (New cfg) _ stk err context details w
                    Hgen) as Hret.
      destruct (wrap_side_effects_aux cfg stk err context details w)
        as (Hg & Hl).
      destruct (Handler_WrapWithDetails (New cfg) stk (Some err) context
                  details w) as [r w1].
      cbn [fst snd] in *. subst r.
      destruct (IH w1) as (answers & Hrun & Hall & Hcg & Hcl).
      destruct (WrapWithDetails_each (New cfg) stk rest w1) as [rs w2].
      cbn [fst snd] in *. subst rs. cbv beta iota zeta delta [fst snd].
      eexists. split; [reflexivity|].
      split; [constructor; [cbn; split; eauto|exact Hall]|].
      cbn [wrapped_calls]. rewrite Hcg, Hcl, Hg, Hl. split; lia.
    + rewrite WrapWithDetails_nil.
      destruct (IH w) as (answers & Hrun & Hall & Hcg & Hcl).
      destruct (WrapWithDetails_each (New cfg) stk rest w) as [rs w2].
      cbn [fst snd] in *. subst rs. cbv beta iota zeta delta [fst snd].
      eexists. split; [reflexivity|].
      split; [constructor; [cbn; split; intros [x Hx]; discriminate|exact Hall]|].
      cbn [wrapped_calls]. split; assumption.
Qed.

(** ** Identifiers read back and compared *)

Lemma hex_pair_decodes (b : Byte.byte) :
  hex_value (hex_digit (N.shiftr (Byte.to_N b) 4)) = Some (Byte.to_N b / 16)%N
  /\ hex_value (hex_digit (N.land (Byte.to_N b) 15))
     = Some (Byte.to_N b mod 16)%N.
Proof. destruct b; split; vm_compute; reflexivity. Qed.

Lemma hex_decode_encode (src : list Byte.byte) :
  hex_decode (hex_EncodeToString src) = Some (map Byte.to_N src).
Proof.
  induction src as [|b src IH]; [reflexivity|].
  destruct (hex_pair_decodes b) as [Hhi Hlo].
  cbn [hex_EncodeToString hex_decode map]. rewrite Hhi, Hlo, IH.
  do 2 f_equal. rewrite N.mul_comm, N.add_comm.
  rewrite N.add_comm, N.mul_comm. symmetry. apply N.div_mod. discriminate.
Qed.

Lemma Byte_to_N_inj (a b : Byte.byte) : Byte.to_N a = Byte.to_N b -> a = b.
Proof.
  intros H. pose proof (Byte.of_to_N a) as Ha. rewrite H, Byte.of_to_N in Ha.
  congruence.
Qed.

(** X10. Two identifiers the default generator makes from the same date
    with working randomness are equal only when the three random bytes
    were equal: the six hex characters spell the bytes back, so a day has
    room for 2^24 different identifiers. *)
Theorem identifiers_differ_with_random_bytes (e e' : Env)
    (b0 b1 b2 c0 c1 c2 : Byte.byte) :
  Time_Format_20060102 (clock e (clock_pos e))
  = Time_Format_20060102 (clock e' (clock_pos e')) ->
  entropy e (entropy_pos e) = Some (b0, b1, b2) ->
  entropy e' (entropy_pos e') = Some (c0, c1, c2) ->
  (fst (GenerateErrorID e) = fst (GenerateErrorID e')
   <-> (b0, b1, b2) = (c0, c1, c2))
  /\ exists random : string,
      fst (GenerateErrorID e)
      = "ERR-" +:+ Time_Format_20060102 (clock e (clock_pos e)) +:+ "-"
          +:+ random
      /\ hex_decode random = Some [Byte.to_N b0; Byte.to_N b1; Byte.to_N b2].
Proof.
  intros Hdate Hb Hc.
  rewrite !GenerateErrorID_value, Hb, Hc, Hdate.
  split.
  - split.
    + intros Heq.
      apply (inj (String.app "ERR-")) in Heq.
      apply (inj (String.app _)) in Heq.
      apply (inj (String.app "-")) in Heq.
      apply (f_equal hex_decode) in Heq.
      rewrite !hex_decode_encode in Heq. cbn [map] in Heq.
      injection Heq as H0 H1 H2.
      apply Byte_to_N_inj in H0, H1, H2. congruence.
    + intros [= -> -> ->]. reflexivity.
  - eexists. split; [reflexivity|]. apply (hex_decode_encode [b0; b1; b2]).
Qed.

Lemma identifiers_differ_with_random_bytes_witness :
  Time_Format_20060102 (clock sample_env (clock_pos sample_env))
  = Time_Format_20060102
      (clock (env_reading sample_time (Some (Byte.x00, Byte.x00, Byte.x01)))
         0%nat)
  /\ entropy sample_env (entropy_pos sample_env)
     = Some (Byte.xa3, Byte.xf9, Byte.xb2)
  /\ entropy (env_reading sample_time (Some (Byte.x00, Byte.x00, Byte.x01)))
       0%nat
     = Some (Byte.x00, Byte.x00, Byte.x01)
  /\ fst (GenerateErrorID sample_env)
     <> fst (GenerateErrorID
               (env_reading sample_time (Some (Byte.x00, Byte.x00, Byte.x01)))).
Proof.
  split; [reflexivity|]. split; [reflexivity|]. split; [reflexivity|].
  intros Heq.
  pose proof (proj1 (proj1
                (identifiers_differ_with_random_bytes sample_env
                   (env_reading sample_time
                      (Some (Byte.x00, Byte.x00, Byte.x01)))
                   Byte.xa3 Byte.xf9 Byte.xb2 Byte.x00 Byte.x00 Byte.x01
                   eq_refl eq_refl eq_refl)) Heq) as Hbytes.
  discriminate Hbytes.
Defined.

Lemma repeat_char_snoc (c : ascii) (n : nat) :
  repeat_char c n +:+ String c "" = repeat_char c (S n).
Proof. induction n as [|n IH]; cbn; [reflexivity|]. now rewrite IH. Qed.

Lemma pad_digits_zero (k : nat) : pad_digits k 0 = repeat_char "0" k.
Proof.
  induction k as [|k IH]; [reflexivity|].
  cbn [pad_digits]. rewrite Zdiv_0_l, IH. apply repeat_char_snoc.
Qed.

Lemma pad_digits_length (k : nat) (x : Z) : String.length (pad_digits k x) = k.
Proof.
  revert x. induction k as [|k IH]; intros x; [reflexivity|].
  cbn [pad_digits]. rewrite string_app_length, IH. cbn. lia.
Qed.

(** Digits in front of a value that has fewer are zeros. *)
Lemma pad_digits_leading_zeros (m j : nat) (u : Z) :
  0 <= u < 10 ^ Z.of_nat m ->
  pad_digits (j + m) u = repeat_char "0" j +:+ pad_digits m u.
Proof.
  revert u. induction m as [|m IH]; intros u Hu.
  - cbn in Hu. assert (u = 0) as -> by lia.
    rewrite Nat.add_0_r, pad_digits_zero. cbn [pad_digits].
    now rewrite string_app_nil_r.
  - rewrite Nat.add_succ_r. cbn [pad_digits].
    rewrite IH, string_app_assoc; [reflexivity|].
    split; [apply Z.div_pos; lia|].
    apply Z.div_lt_upper_bound; [lia|].
    replace (Z.of_nat (S m)) with (Z.succ (Z.of_nat m)) in Hu by lia.
    rewrite Z.pow_succ_r in Hu by lia. lia.
Qed.

Lemma utoa_loop_digits (rounds : nat) :
  forall (n : nat) (u : Z) (acc : string),
    (1 <= n <= rounds)%nat -> 0 <= u < 10 ^ Z.of_nat n ->
    exists m : nat,
      (1 <= m <= n)%nat /\ u < 10 ^ Z.of_nat m
      /\ utoa_loop rounds u acc = pad_digits m u +:+ acc.
Proof.
  induction rounds as [|rounds IH]; intros n u acc Hn Hu; [lia|].
  cbn [utoa_loop]. destruct (u <? 10) eqn:Hlt.
  - apply Z.ltb_lt in Hlt. exists 1%nat. split; [lia|]. split; [cbn; lia|].
    reflexivity.
  - apply Z.ltb_ge in Hlt.
    destruct n as [|[|n]]; [lia|cbn in Hu; lia|].
    destruct (IH (S n) (u / 10) (String (digit_char (u mod 10)) acc))
      as (m & Hm & Hlt' & Heq).
    + lia.
    + split; [apply Z.div_pos; lia|].
      apply Z.div_lt_upper_bound; [lia|].
      replace (Z.of_nat (S (S n))) with (Z.succ (Z.of_nat (S n))) in Hu by lia.
      rewrite Z.pow_succ_r in Hu by lia. lia.
    + exists (S m). split; [lia|]. split.
      * replace (Z.of_nat (S m)) with (Z.succ (Z.of_nat m)) by lia.
        rewrite Z.pow_succ_r by lia.
        pose proof (Z.mul_div_le u 10). pose proof (Z.mod_pos_bound u 10).
        pose proof (Z.div_mod u 10). lia.
      * rewrite Heq. cbn [pad_digits]. now rewrite string_app_assoc.
Qed.

(** A field of the date is the fixed-width digit string of its value. *)
Lemma time_appendInt_pad_digits (k : nat) (x : Z) :
  (1 <= k <= 20)%nat -> 0 <= x < 10 ^ Z.of_nat k ->
  time_appendInt x k = pad_digits k x.
Proof.
  intros Hk Hx. unfold time_appendInt, utoa.
  assert ((x <? 0) = false) as -> by (apply Z.ltb_ge; lia).
  rewrite Z.abs_eq by lia.
  destruct (utoa_loop_digits 20 k x EmptyString Hk Hx) as (m & Hm & Hlt & Heq).
  rewrite Heq, string_app_nil_r, pad_digits_length. cbn [String.append].
  replace k with ((k - m) + m)%nat at 2 by lia.
  symmetry. apply pad_digits_leading_zeros. lia.
Qed.

Lemma compare_common_prefix (p a b : string) :
  String.compare (p +:+ a) (p +:+ b) = String.compare a b.
Proof.
  induction p as [|c p IH]; [reflexivity|].
  cbn [String.append String.compare].
  assert (Ascii.compare c c = Eq) as ->; [|exact IH].
  unfold Ascii.compare. apply N.compare_refl.
Qed.

Lemma digit_char_compare (a b : Z) :
  0 <= a < b -> b < 10 ->
  Ascii.compare (digit_char a) (digit_char b) = Lt.
Proof.
  intros Ha Hb.
  assert (Ha' : a = 0 \/ a = 1 \/ a = 2 \/ a = 3 \/ a = 4 \/ a = 5 \/ a = 6
                \/ a = 7 \/ a = 8 \/ a = 9) by lia.
  assert (Hb' : b = 0 \/ b = 1 \/ b = 2 \/ b = 3 \/ b = 4 \/ b = 5 \/ b = 6
                \/ b = 7 \/ b = 8 \/ b = 9) by lia.
  repeat (destruct Ha' as [-> | Ha']);
    repeat (destruct Hb' as [-> | Hb']); subst;
    solve [reflexivity | lia].
Qed.

(** Fixed-width digit strings compare like the numbers they spell,
    whatever follows them. *)
Lemma pad_digits_compare (k : nat) :
  forall (x y : Z) (s s' : string),
    0 <= x < y -> y < 10 ^ Z.of_nat k ->
    String.compare (pad_digits k x +:+ s) (pad_digits k y +:+ s') = Lt.
Proof.
  induction k as [|k IH]; intros x y s s' Hx Hy; [cbn in Hy; lia|].
  cbn [pad_digits]. rewrite !string_app_assoc.
  replace (Z.of_nat (S k)) with (Z.succ (Z.of_nat k)) in Hy by lia.
  rewrite Z.pow_succ_r in Hy by lia.
  pose proof (Z.div_mod x 10) as Hdx. pose proof (Z.div_mod y 10) as Hdy.
  pose proof (Z.mod_pos_bound x 10) as Hmx.
  pose proof (Z.mod_pos_bound y 10) as Hmy.
  destruct (Z.lt_trichotomy (x / 10) (y / 10)) as [Hlt | [Heq | Hgt]].
  - apply IH; [split; [apply Z.div_pos; lia|exact Hlt]|].
    apply Z.div_lt_upper_bound; lia.
  - rewrite Heq, compare_common_prefix. cbn [String.append String.compare].
    rewrite digit_char_compare; [reflexivity|lia|lia].
  - lia.
Qed.

(** X11. Identifiers sort by day: while the clock reads dates between
    1970 and 9999, an identifier made on an earlier calendar date comes
    before one made on a later date in byte order, whatever their random
    parts are (and whether or not the randomness source worked). *)
Theorem identifiers_sort_by_day (e e' : Env) :
  clock_in_range (clock e (clock_pos e)) = true ->
  clock_in_range (clock e' (clock_pos e')) = true ->
  date_number (clock e (clock_pos e)) < date_number (clock e' (clock_pos e')) ->
  String.compare (fst (GenerateErrorID e)) (fst (GenerateErrorID e')) = Lt.
Proof.
  unfold clock_in_range, date_number.
  rewrite !andb_true_iff, !Z.leb_le.
  intros ((((((Hy0 & Hy1) & Hm0) & Hm1) & Hd0) & Hd1) & _)
         ((((((Hy0' & Hy1') & Hm0') & Hm1') & Hd0') & Hd1') & _) Hlt.
  rewrite !GenerateErrorID_value.
  rewrite (compare_common_prefix "ERR-").
  unfold Time_Format_20060102.
  rewrite !time_appendInt_pad_digits by (cbn; lia).
  rewrite !string_app_assoc.
  destruct (Z.lt_trichotomy (t_year (clock e (clock_pos e)))
              (t_year (clock e' (clock_pos e')))) as [Hy | [Hy | Hy]];
    [apply pad_digits_compare; cbn; lia| |lia].
  rewrite Hy in *. rewrite compare_common_prefix.
  destruct (Z.lt_trichotomy (t_month (clock e (clock_pos e)))
              (t_month (clock e' (clock_pos e')))) as [Hm | [Hm | Hm]];
    [apply pad_digits_compare; cbn; lia| |lia].
  rewrite Hm in *. rewrite compare_common_prefix.
  apply pad_digits_compare; cbn; lia.
Qed.

Lemma identifiers_sort_by_day_witness :
  clock_in_range (clock sample_env (clock_pos sample_env)) = true
  /\ clock_in_range (clock (env_reading sample_time_next_day None) 0%nat) = true
  /\ date_number (clock sample_env (clock_pos sample_env))
     < date_number (clock (env_reading sample_time_next_day None) 0%nat)
  /\ String.compare (fst (GenerateErrorID sample_env))
       (fst (GenerateErrorID (env_reading sample_time_next_day None)))
     = Lt.
Proof.
  split; [reflexivity|]. split; [reflexivity|]. split; [reflexivity|].
  exact (identifiers_sort_by_day sample_env
           (env_reading sample_time_next_day None) eq_refl eq_refl eq_refl).
Defined.

(** ** The recovery boundary, beyond the panic case *)

(** X12. A request whose handler returns goes through the middleware
    untouched, on any handler value: the response is exactly what the
    handler left, nothing is wrapped, logged or allocated, and no
    callback runs. *)
Theorem recovery_is_transparent (json_string : string -> string) (h : Handler)
    (next : http_Handler) (stk : GoStack) (rw rw1 : ResponseWriter)
    (r : Request) (w : World) :
  next rw r = (Returned tt, rw1) ->
  Handler_RecoveryMiddleware json_string h next stk rw r w = (Returned tt, rw1, w)
  /\ RecoveryMiddleware json_string
       {| defaultHandler := h; configureMu := false; configured := true |}
       next stk rw r w
     = (Returned tt, rw1, w).
Proof.
  intros Hnext. unfold RecoveryMiddleware, Default, Handler_RecoveryMiddleware.
  cbn [defaultHandler]. rewrite Hnext. split; reflexivity.
Qed.

Lemma recovery_is_transparent_witness :
  handler_ok fresh_ResponseWriter sample_request
  = (Returned tt,
     Write "ok" (WriteHeader 200
                   (Header_Set "Content-Type" "text/plain" fresh_ResponseWriter)))
  /\ rw_status
       (snd (fst (Handler_RecoveryMiddleware plain_json_string
                    (New DefaultConfig) handler_ok sample_stack
                    fresh_ResponseWriter sample_request sample_world)))
     = 200.
Proof.
  split; [reflexivity|].
  rewrite (proj1 (recovery_is_transparent plain_json_string (New DefaultConfig)
                    handler_ok sample_stack fresh_ResponseWriter _
                    sample_request sample_world eq_refl)).
  reflexivity.
Defined.

(** X13. What a recovered panic leaves behind, on a handler made by
    [New].  A panic value that is an error is wrapped as it is, any other
    value inside a [panicError] whose text is [panic: ] and the value.
    The request's method, path and remote address go into a new details
    map, which the envelope refers to and which stays as built; the
    logger is called with the context [panic recovered in HTTP handler]
    and its own copy of that map plus the timestamp; and the identifier
    in the response body is the one the logger was given. *)
Theorem recovery_logs_the_request (json_string : string -> string)
    (cfg : Config) (next : http_Handler) (stk : GoStack)
    (rw rw1 : ResponseWriter) (r : Request) (w : World) (rec : panic_value) :
  next rw r = (Panicked rec, rw1) ->
  let lg := default (NewDefaultLogger "os.Stdout") (Logger_ cfg) in
  let request_map : gmap string any :=
    <["method" := AString (Method r)]>
      (<["path" := AString (URL_Path r)]>
         (<["remote" := AString (RemoteAddr r)]> ∅)) in
  let details := fresh (dom (heap w)) in
  let copy := fresh (dom (<[details := request_map]> (heap w))) in
  exists (wrapped : ErrorWithID) (rw2 : ResponseWriter) (w2 : World),
    Handler_RecoveryMiddleware json_string (New cfg) next stk rw r w
    = (Returned tt, rw2, w2)
    /\ Original wrapped = Some (recovered_error rec)
    /\ (forall e : error, rec = PErr e -> Original wrapped = Some e)
    /\ (forall s : string,
          rec = PString s ->
          render_error (Original wrapped) = "panic: " +:+ s)
    /\ Context wrapped = panic_context
    /\ Details wrapped = Some details
    /\ heap w2 !! details = Some request_map
    /\ copy <> details
    /\ heap w2 !! copy
       = Some (<["timestamp" := AInt64 (Timestamp wrapped)]> request_map)
    /\ In (EvLoggerError lg (ID wrapped) (Some (recovered_error rec))
             panic_context copy (StackTrace wrapped)) (trace w2)
    /\ rw_body rw2
       = rw_body rw1
           +:+ (json_Marshal json_string
                  {| resp_ErrorID := ID wrapped;
                     resp_Message := response_message (Environment cfg) wrapped;
                     resp_Timestamp := Timestamp wrapped |} +:+ LF).
Proof.
  intros Hnext lg request_map details copy.
  pose proof (New_has_generator cfg) as Hgen.
  pose proof (New_has_logger cfg) as Hlg.
  destruct (New_keeps_settings cfg) as (_ & _ & _ & Henv).
  unfold Handler_RecoveryMiddleware. rewrite Hnext. unfold new_map.
  fold request_map. fold details.
  set (w1 := with_heap (<[details := request_map]> (heap w)) w).
  set (stk' := push frame_Recovery_deferred (push frame_runtime_panic stk)).
  change (match rec with PErr v => v | _ => PanicError rec end)
    with (recovered_error rec).
  pose proof (WrapWithDetails_returns (New cfg) _ stk' (recovered_error rec)
                panic_context (Some details) w1 Hgen) as Hret.
  pose proof (WrapWithDetails_heap (New cfg) _ _ stk' (recovered_error rec)
                panic_context (Some details) w1 Hgen Hlg) as Hheap.
  pose proof (WrapWithDetails_trace (New cfg) _ _ stk' (recovered_error rec)
                panic_context (Some details) w1 Hgen Hlg) as Htrace.
  destruct (Handler_WrapWithDetails (New cfg) stk' (Some (recovered_error rec))
              panic_context (Some details) w1) as [res w2].
  cbn [fst snd] in Hret, Hheap, Htrace. subst res.
  unfold Handler_writeErrorResponse, json_Encode. rewrite Henv.
  assert (Hdetails : heap w1 !! details = Some request_map)
    by apply lookup_insert_eq.
  assert (Hne : copy <> details).
  { intros Heq. pose proof (fresh_loc_unused (heap w1)) as Hfresh.
    cbn [heap w1 with_heap] in Hfresh. fold copy in Hfresh.
    rewrite Heq in Hfresh. cbn [heap w1 with_heap] in Hdetails. congruence. }
  unfold user_details in Hheap. rewrite (lookup_total_correct _ _ _ Hdetails) in Hheap.
  cbn [heap w1 with_heap] in Hheap. fold copy in Hheap.
  eexists (built_envelope (New cfg) (default GenerateErrorID (IDGenerator cfg))
             stk' (recovered_error rec) panic_context (Some details) w1),
    _, w2.
  split; [reflexivity|].
  split; [reflexivity|].
  split; [intros e ->; reflexivity|].
  split; [intros s ->; reflexivity|].
  split; [reflexivity|]. split; [reflexivity|].
  split; [rewrite Hheap, lookup_insert_ne by exact Hne; apply lookup_insert_eq|].
  split; [exact Hne|].
  split; [rewrite Hheap; apply lookup_insert_eq|].
  split.
  { rewrite Htrace. apply in_or_app. right. apply in_or_app. left.
    right. left. cbn [heap w1 with_heap]. fold copy. reflexivity. }
  unfold Write, WriteHeader, Header_Set.
  cbn [rw_header rw_wroteHeader rw_status rw_sent_header rw_body].
  destruct (rw_wroteHeader rw1); reflexivity.
Qed.

Lemma recovery_logs_the_request_witness :
  handler_panics fresh_ResponseWriter sample_request
  = (Panicked (PString "index out of range"), fresh_ResponseWriter)
  /\ exists (wrapped : ErrorWithID) (rw2 : ResponseWriter) (w2 : World),
      Handler_RecoveryMiddleware plain_json_string (New DefaultConfig)
        handler_panics sample_stack fresh_ResponseWriter sample_request
        sample_world
      = (Returned tt, rw2, w2)
      /\ Context wrapped = panic_context.
Proof.
  split; [reflexivity|].
  destruct (recovery_logs_the_request plain_json_string DefaultConfig
              handler_panics sample_stack fresh_ResponseWriter
              fresh_ResponseWriter sample_request sample_world
              (PString "index out of range") eq_refl)
    as (wrapped & rw2 & w2 & Hrun & _ & _ & _ & Hctx & _).
  exists wrapped, rw2, w2. split; [exact Hrun|exact Hctx].
Defined.

(** X14. Behind a handler made by [New] no panic of the wrapped handler
    gets past the middleware: whatever the handler does, returns or
    panics with any value, and whatever the callback does, the
    middleware returns normally, and [Logger.Error] is called at most
    once, exactly when the handler panicked. *)
Theorem recovery_never_propagates (json_string : string -> string)
    (cfg : Config) (next : http_Handler) (stk : GoStack) (rw : ResponseWriter)
    (r : Request) (w : World) :
  fst (fst (Handler_RecoveryMiddleware json_string (New cfg) next stk rw r w))
  = Returned tt
  /\ count_calls is_LoggerError
       (trace (snd (Handler_RecoveryMiddleware json_string (New cfg) next stk
                      rw r w)))
     = (count_calls is_LoggerError (trace w)
        + match fst (next rw r) with
          | Returned _ => 0
          | Panicked _ => 1
          end)%nat.
Proof.
  unfold Handler_RecoveryMiddleware.
  destruct (next rw r) as [[[]|rec] rw1]; cbn [fst snd]; [split; [reflexivity|lia]|].
  unfold new_map.
  change (match rec with PErr v => v | _ => PanicError rec end)
    with (recovered_error rec).
  match goal with
  | |- context [Handler_WrapWithDetails ?h ?s (Some ?e) ?c ?d ?w0] =>
      pose proof (WrapWithDetails_returns h _ s e c d w0 (New_has_generator cfg))
        as Hret;
      pose proof (wrap_side_effects_aux cfg s e c d w0) as [_ Hcount];
      destruct (Handler_WrapWithDetails h s (Some e) c d w0) as [res w2]
  end.
  cbn [fst snd] in Hret, Hcount. subst res.
  cbn [Handler_writeErrorResponse fst snd]. split; [reflexivity|].
  rewrite Hcount. cbn [trace with_heap]. lia.
Qed.

(** X15. [WriteError] with a nil envelope -- what wrapping a nil failure
    returns -- panics, and only after it has set the content type and
    sent status 500: the caller must check for nil before writing an
    error response. *)
Theorem write_error_with_nil_envelope_panics (json_string : string -> string)
    (h : Handler) (g : Global) (stk : GoStack) (context : string)
    (rw : ResponseWriter) (w : World) :
  Handler_WriteError json_string h rw None
  = (Panicked nil_dereference,
     WriteHeader StatusInternalServerError
       (Header_Set "Content-Type" "application/json" rw))
  /\ (forall e : option ErrorWithID,
        fst (Wrap g stk None context w) = Returned e ->
        fst (WriteError json_string g rw e) = Panicked nil_dereference
        /\ rw_wroteHeader (snd (WriteError json_string g rw e)) = true
        /\ rw_body (snd (WriteError json_string g rw e)) = rw_body rw
        /\ rw_status (snd (WriteError json_string g rw e))
           = (if rw_wroteHeader rw then rw_status rw
              else StatusInternalServerError)).
Proof.
  split; [reflexivity|].
  intros e [= <-].
  unfold WriteError, Handler_writeErrorResponse, WriteHeader, Header_Set.
  cbn [rw_header rw_wroteHeader rw_status rw_sent_header rw_body].
  destruct (rw_wroteHeader rw); repeat split.
Qed.

Lemma write_error_with_nil_envelope_panics_witness :
  fst (Wrap initial_Global sample_stack None "context" sample_world)
  = Returned None
  /\ fst (WriteError plain_json_string initial_Global fresh_ResponseWriter None)
     = Panicked nil_dereference.
Proof.
  split; [reflexivity|].
  exact (proj1 (proj2 (write_error_with_nil_envelope_panics plain_json_string
                         zero_Handler initial_Global sample_stack "context"
                         fresh_ResponseWriter sample_world)
                  None eq_refl)).
Defined.

(** X16. Outside the development environment the response gives away
    nothing but the identifier and the timestamp: two envelopes that
    agree on those two produce the very same response, whatever failure,
    context, details or stack trace they carry, and the message is the
    fixed generic text. *)
Theorem production_response_hides_failure (json_string : string -> string)
    (h : Handler) (rw : ResponseWriter) (e1 e2 : ErrorWithID) :
  Environment (config h) <> "development"%string ->
  ID e1 = ID e2 ->
  Timestamp e1 = Timestamp e2 ->
  Handler_WriteError json_string h rw (Some e1)
  = Handler_WriteError json_string h rw (Some e2)
  /\ rw_body (snd (Handler_WriteError json_string h rw (Some e1)))
     = rw_body rw
         +:+ (json_Marshal json_string
                {| resp_ErrorID := ID e1; resp_Message := generic_message;
                   resp_Timestamp := Timestamp e1 |} +:+ LF).
Proof.
  intros Henv Hid Hts.
  unfold Handler_WriteError, Handler_writeErrorResponse.
  destruct (String.eqb_spec (Environment (config h)) "development");
    [contradiction|].
  rewrite Hid, Hts. split; [reflexivity|].
  unfold json_Encode, Write, WriteHeader, Header_Set.
  cbn [rw_header rw_wroteHeader rw_status rw_sent_header rw_body snd].
  destruct (rw_wroteHeader rw); reflexivity.
Qed.

Lemma production_response_hides_failure_witness :
  Environment (config (New DefaultConfig)) <> "development"%string
  /\ ID sample_envelope = ID sample_envelope_other
  /\ Timestamp sample_envelope = Timestamp sample_envelope_other
  /\ Handler_WriteError plain_json_string (New DefaultConfig)
       fresh_ResponseWriter (Some sample_envelope)
     = Handler_WriteError plain_json_string (New DefaultConfig)
         fresh_ResponseWriter (Some sample_envelope_other).
Proof.
  assert (Henv : Environment (config (New DefaultConfig))
                 <> "development"%string) by discriminate.
  split; [exact Henv|]. split; [reflexivity|]. split; [reflexivity|].
  exact (proj1 (production_response_hides_failure plain_json_string
                  (New DefaultConfig) fresh_ResponseWriter sample_envelope
                  sample_envelope_other Henv eq_refl eq_refl)).
Defined.

(** ** Stack capture and the default facade *)

Lemma utoa_loop_length_le (rounds : nat) (u : Z) (acc : string) :
  (String.length (utoa_loop rounds u acc) <= rounds + String.length acc)%nat.
Proof.
  revert u acc. induction rounds as [|rounds IH]; intros u acc; [cbn; lia|].
  cbn [utoa_loop]. destruct (u <? 10); [cbn; lia|].
  specialize (IH (u / 10) (String (digit_char (u mod 10)) acc)).
  cbn [String.length] in IH. lia.
Qed.

Lemma dump_header_length (id : Z) : (String.length (dump_header id) <= 43)%nat.
Proof.
  unfold dump_header, fmt_integer. cbn [Nat.sub repeat_char].
  rewrite !string_app_length.
  pose proof (utoa_loop_length_le 20 (Z.abs id) EmptyString) as Hlen.
  fold (utoa (Z.abs id)) in Hlen. cbn [String.length] in Hlen.
  destruct (id <? 0); unfold LF; cbn [String.length];
    rewrite repeat_char_length; lia.
Qed.

(** X17. The trace a wrap captures always begins with the dump's header
    and the package's own two frames, [captureStackTrace] and the
    handler's [WrapWithDetails]: the [skip] argument has no effect, any
    value gives the same text, and the caller's frames come only after
    them. *)
Theorem own_frames_lead_the_trace (cfg : Config) (stk : GoStack) (err : error)
    (context : string) (details : option loc) (w : World) :
  IncludeStackTrace cfg = true ->
  exists wrapped : ErrorWithID,
    fst (Handler_WrapWithDetails (New cfg) stk (Some err) context details w)
    = Returned (Some wrapped)
    /\ has_prefix (StackTrace wrapped)
         (dump_header (goid stk)
            +:+ render_frames
                  [frame_captureStackTrace; frame_Handler_WrapWithDetails])
       = true
    /\ (forall skip : Z,
          captureStackTrace skip (push frame_Handler_WrapWithDetails stk)
          = StackTrace wrapped).
Proof.
  intros Hstack.
  destruct (New_keeps_settings cfg) as (_ & _ & Hst & _).
  rewrite Hstack in Hst.
  eexists. split; [apply WrapWithDetails_returns, New_has_generator|].
  cbn [StackTrace built_envelope]. rewrite Hst.
  split; [|reflexivity].
  unfold captureStackTrace, runtime_Stack, stack_dump, push.
  cbn [goid frames].
  change (frame_captureStackTrace :: frame_Handler_WrapWithDetails :: frames stk)
    with ([frame_captureStackTrace; frame_Handler_WrapWithDetails] ++ frames stk).
  rewrite render_frames_app, <- string_app_assoc.
  rewrite string_take_app; [apply has_prefix_app|].
  rewrite string_app_length.
  pose proof (dump_header_length (goid stk)) as Hh.
  assert (Hf : String.length
                 (render_frames
                    [frame_captureStackTrace; frame_Handler_WrapWithDetails])
               = 160%nat) by (vm_compute; reflexivity).
  rewrite Hf. lia.
Qed.

Lemma own_frames_lead_the_trace_witness :
  IncludeStackTrace sample_config_stack = true
  /\ forall skip : Z,
      captureStackTrace skip (push frame_Handler_WrapWithDetails sample_stack)
      = captureStackTrace 2 (push frame_Handler_WrapWithDetails sample_stack).
Proof.
  split; [reflexivity|]. intros skip.
  destruct (own_frames_lead_the_trace sample_config_stack sample_stack
              sample_error "context" None sample_world eq_refl)
    as (wrapped & _ & _ & Hskip).
  rewrite (Hskip skip), (Hskip 2). reflexivity.
Defined.

(** X18. Without any [Configure] the process-wide functions work with
    the defaults: [Wrap] returns an envelope with a default-generator
    identifier and no stack trace, logs through the default logger on
    standard output, calls the no-op default callback in the caller's
    goroutine and starts none; [WriteError] answers with the generic
    message. *)
Theorem default_facade_before_configure (json_string : string -> string)
    (stk : GoStack) (err : error) (context : string) (w : World)
    (rw : ResponseWriter) (e : ErrorWithID) :
  let w' := snd (Wrap initial_Global stk (Some err) context w) in
  (exists wrapped : ErrorWithID,
      fst (Wrap initial_Global stk (Some err) context w)
      = Returned (Some wrapped)
      /\ ID wrapped = fst (GenerateErrorID (env w))
      /\ StackTrace wrapped = EmptyString
      /\ trace w'
         = trace w
             ++ [EvIDGenerator (ID wrapped);
                 EvLoggerError (DefaultLogger "os.Stdout") (ID wrapped)
                   (Some err) context (fresh (dom (heap w))) EmptyString;
                 EvOnError wrapped]
      /\ goroutines w' = goroutines w)
  /\ rw_body (snd (WriteError json_string initial_Global rw (Some e)))
     = rw_body rw
         +:+ (json_Marshal json_string
                {| resp_ErrorID := ID e; resp_Message := generic_message;
                   resp_Timestamp := Timestamp e |} +:+ LF).
Proof.
  intros w'. subst w'. split.
  - unfold Wrap, Handler_Wrap, initial_Global. cbn [defaultHandler].
    assert (Hgen : IDGenerator (config (New DefaultConfig))
                   = Some GenerateErrorID) by reflexivity.
    assert (Hlg : Logger_ (config (New DefaultConfig))
                  = Some (DefaultLogger "os.Stdout")) by reflexivity.
    eexists. split; [apply (WrapWithDetails_returns _ _ _ _ _ _ _ Hgen)|].
    split; [reflexivity|]. split; [reflexivity|].
    split.
    + rewrite (WrapWithDetails_trace _ _ _ _ _ _ _ _ Hgen Hlg). reflexivity.
    + rewrite (WrapWithDetails_goroutines _ _ _ _ _ _ _ Hgen).
      apply app_nil_r.
  - unfold WriteError, Handler_writeErrorResponse, json_Encode, Write,
      WriteHeader, Header_Set.
    cbn [rw_header rw_wroteHeader rw_status rw_sent_header rw_body snd].
    destruct (rw_wroteHeader rw); reflexivity.
Qed.

(** X19. After [Configure] the process-wide functions follow the given
    configuration: [WriteError] chooses its message by the configured
    environment, and a [Wrap] with stack traces switched on captures a
    dump that starts with four frames of the package --
    [captureStackTrace], the handler's [WrapWithDetails] and [Wrap], and
    the process-wide [Wrap] -- before the caller's. *)
Theorem configured_facade_follows_config (json_string : string -> string)
    (cfg : Config) (stk : GoStack) (err : error) (context : string)
    (w : World) (rw : ResponseWriter) (e : ErrorWithID) :
  let g := snd (Configure cfg initial_Global) in
  (exists wrapped : ErrorWithID,
      fst (Wrap g stk (Some err) context w) = Returned (Some wrapped)
      /\ StackTrace wrapped
         = (if IncludeStackTrace cfg
            then string_take 4096
                   (stack_dump
                      {| goid := goid stk;
                         frames := frames_of_Wrap ++ frame_Wrap :: frames stk |})
            else EmptyString))
  /\ rw_body (snd (WriteError json_string g rw (Some e)))
     = rw_body rw
         +:+ (json_Marshal json_string
                {| resp_ErrorID := ID e;
                   resp_Message := response_message (Environment cfg) e;
                   resp_Timestamp := Timestamp e |} +:+ LF).
Proof.
  intros g. subst g. rewrite Configure_first. cbn [snd].
  destruct (New_keeps_settings cfg) as (_ & _ & Hst & Henv).
  split.
  - unfold Wrap, Handler_Wrap, Default, configured_with. cbn [defaultHandler].
    eexists. split; [apply WrapWithDetails_returns, New_has_generator|].
    cbn [StackTrace built_envelope]. rewrite Hst. reflexivity.
  - unfold WriteError, Default, configured_with, Handler_writeErrorResponse,
      json_Encode, Write, WriteHeader, Header_Set, response_message.
    cbn [defaultHandler]. rewrite Henv.
    cbn [rw_header rw_wroteHeader rw_status rw_sent_header rw_body snd].
    destruct (rw_wroteHeader rw); reflexivity.
Qed.

(** ** The envelope seen by its users *)

Lemma describe_value (e : ErrorWithID) :
  ErrorWithID_Error e
  = "[" +:+ ID e +:+ "] "
      +:+ (if String.eqb (Context e) "" then EmptyString
           else Context e +:+ ": ")
      +:+ render_error (Original e).
Proof.
  unfold ErrorWithID_Error, Sprintf.
  destruct (String.eqb (Context e) ""); cbn;
    rewrite !pad_left_0, !string_app_nil_r, ?string_app_assoc; reflexivity.
Qed.

(** X20. The description of an envelope can be searched for its parts:
    it starts with the identifier in brackets, and the identifier, the
    context and the text of the wrapped failure each occur in it; a nil
    wrapped failure shows as [<nil>]. *)
Theorem description_contains_its_parts (e : ErrorWithID) :
  has_prefix (ErrorWithID_Error e) ("[" +:+ ID e +:+ "] ") = true
  /\ contains (ErrorWithID_Error e) (ID e) = true
  /\ contains (ErrorWithID_Error e) (Context e) = true
  /\ contains (ErrorWithID_Error e) (render_error (Original e)) = true
  /\ (Original e = None -> contains (ErrorWithID_Error e) "<nil>" = true).
Proof.
  rewrite describe_value.
  set (middle := if String.eqb (Context e) "" then EmptyString
                 else Context e +:+ ": ").
  set (orig := render_error (Original e)).
  assert (Horig : contains ("[" +:+ ID e +:+ "] " +:+ middle +:+ orig) orig
                  = true).
  { replace ("[" +:+ ID e +:+ "] " +:+ middle +:+ orig)
      with (("[" +:+ ID e +:+ "] " +:+ middle) +:+ orig +:+ "")
      by (rewrite string_app_nil_r, !string_app_assoc; reflexivity).
    apply contains_app. }
  split.
  { replace ("[" +:+ ID e +:+ "] " +:+ middle +:+ orig)
      with (("[" +:+ ID e +:+ "] ") +:+ (middle +:+ orig))
      by (rewrite !string_app_assoc; reflexivity).
    apply has_prefix_app. }
  split; [apply (contains_app "[")|].
  split.
  { subst middle. destruct (String.eqb_spec (Context e) "") as [-> | Hne].
    - apply contains_prefix. reflexivity.
    - replace ("[" +:+ ID e +:+ "] " +:+ (Context e +:+ ": ") +:+ orig)
        with (("[" +:+ ID e +:+ "] ") +:+ Context e +:+ (": " +:+ orig))
        by (rewrite !string_app_assoc; reflexivity).
      apply contains_app. }
  split; [exact Horig|].
  intros Hnil. subst orig. rewrite Hnil in *. exact Horig.
Qed.

Lemma description_contains_its_parts_witness :
  Original {| ID := "ERR-20251023-a3f9b2"; Original := None; Context := "";
              StackTrace := ""; Details := None; Timestamp := 0 |} = None
  /\ contains
       (ErrorWithID_Error
          {| ID := "ERR-20251023-a3f9b2"; Original := None; Context := "";
             StackTrace := ""; Details := None; Timestamp := 0 |})
       "<nil>" = true.
Proof.
  split; [reflexivity|].
  exact (proj2 (proj2 (proj2 (proj2
           (description_contains_its_parts
              {| ID := "ERR-20251023-a3f9b2"; Original := None; Context := "";
                 StackTrace := ""; Details := None; Timestamp := 0 |}))))
           eq_refl).
Defined.


